(** * The document rendering pipeline of [server/services/pdf-service.ts]

    A shallow embedding of [PDFService]: the coordinator [convertWordToPDF],
    the primary renderer [convertWordToPDFWithPuppeteer], the fallback renderer
    [convertWordToPDFAlternative] and the header/footer templates.

    Conventions of the model.
    - A JavaScript string is a [string]; its code units are the 8-bit
      characters of [ascii] (the Latin-1 range of UTF-16 code units).
    - Positions and lengths on the PDF page are integers in hundredths of a
      point, so that the page size [595.28 x 841.89] is exact: [841.89] is
      [84189]; font sizes and border widths stay in points.
    - A thrown [Error] is its [message]; a promise that rejects is [Err].
    - Everything outside the process (file system, mammoth, puppeteer,
      pdf-lib, clock, locale) and [String.prototype.toUpperCase] of the
      runtime answer through the record [Env]. *)

From Stdlib Require Import ZArith List String Ascii Bool Lia DecimalString.
Import ListNotations.
Open Scope Z_scope.
Open Scope list_scope.
Open Scope string_scope.

(** ** JavaScript strings *)

Definition nl : string := String "010"%char "".
Definition dq : string := String "034"%char "".

Definition string_of_Z (z : Z) : string := NilZero.string_of_int (Z.to_int z).

(** The capital of one code unit, where it is made of Latin-1 code units:
    [a]-[z] and the letters 224-254 but the division sign 247 lie 32 above
    their capital, and the sharp s (223) has the capital [SS], two code
    units.  The capitals of the micro sign (181) and of the y with diaeresis
    (255) are not Latin-1 code units, so the answer of the runtime on a text
    that holds one of them is not a string of the model: the sample
    environments keep these two code units, and no run below holds them. *)
Definition upper_code_unit (c : ascii) : string :=
  let n := nat_of_ascii c in
  if ((97 <=? n) && (n <=? 122))%nat then String (ascii_of_nat (n - 32)) ""
  else if (n =? 223)%nat then "SS"
  else if ((224 <=? n) && (n <=? 254) && negb (n =? 247))%nat
       then String (ascii_of_nat (n - 32)) ""
  else String c "".

(** The capitals of a text, as the sample environments answer
    [s.toUpperCase()]. *)
Fixpoint upperCaseLatin1 (s : string) : string :=
  match s with
  | EmptyString => EmptyString
  | String c s' => upper_code_unit c ++ upperCaseLatin1 s'
  end.

(** [s.substring(0, n)]. *)
Definition substring0 (n : nat) (s : string) : string := substring 0 n s.

(** White space as [String.prototype.trim] sees it, in the Latin-1 range:
    TAB, LF, VT, FF, CR, SPACE and NBSP. *)
Definition is_white_space (c : ascii) : bool :=
  let n := nat_of_ascii c in
  (((9 <=? n) && (n <=? 13)) || (n =? 32) || (n =? 160))%nat.

Fixpoint trimStart (s : string) : string :=
  match s with
  | EmptyString => EmptyString
  | String c s' => if is_white_space c then trimStart s' else s
  end.

Fixpoint trimEnd (s : string) : string :=
  match s with
  | EmptyString => EmptyString
  | String c s' =>
      match trimEnd s' with
      | EmptyString => if is_white_space c then EmptyString else String c EmptyString
      | t => String c t
      end
  end.

Definition trim (s : string) : string := trimEnd (trimStart s).

(** [s.split(c)] for a one-character separator. *)
Fixpoint split (c : ascii) (s : string) : list string :=
  match s with
  | EmptyString => [EmptyString]
  | String a s' =>
      if Ascii.eqb a c then EmptyString :: split c s'
      else match split c s' with
           | [] => [String a EmptyString]
           | seg :: rest => String a seg :: rest
           end
  end.

(** [segs.join(sep)]. *)
Fixpoint join (sep : string) (segs : list string) : string :=
  match segs with
  | [] => EmptyString
  | [seg] => seg
  | seg :: rest => seg ++ sep ++ join sep rest
  end.

(** The character class [[\x20-\x7E]]. *)
Definition is_printable_ascii (c : ascii) : bool :=
  let n := nat_of_ascii c in ((32 <=? n) && (n <=? 126))%nat.

(** [s.replace(/[^\x20-\x7E]/g, " ")]. *)
Fixpoint replace_non_printable (s : string) : string :=
  match s with
  | EmptyString => EmptyString
  | String c s' =>
      String (if is_printable_ascii c then c else " "%char) (replace_non_printable s')
  end.

Fixpoint string_forallb (p : ascii -> bool) (s : string) : bool :=
  match s with
  | EmptyString => true
  | String c s' => p c && string_forallb p s'
  end.

(** [t.includes(s)]. *)
Definition includes (s t : string) : bool :=
  match index 0 s t with Some _ => true | None => false end.

(** [a || d] on a nullable string: [null], [undefined] and [""] are falsy. *)
Definition str_or (a : option string) (d : string) : string :=
  match a with
  | Some s => if String.eqb s "" then d else s
  | None => d
  end.

(** [a || 0] on a nullable integer: [null] and [0] are falsy. *)
Definition num_or_zero (a : option Z) : Z :=
  match a with Some n => n | None => 0 end.

(** [`${a}`] on a nullable integer. *)
Definition template_of_num (a : option Z) : string :=
  match a with Some n => string_of_Z n | None => "null" end.

(** ** Dates and locales

    A [Date] is the calendar day it denotes in the local time zone.  The
    locales are those the runtime may be started with; [toLocaleDateString]
    follows the CLDR short date of each. *)

Record DateVal := { year : Z; month : Z; day : Z }.

Inductive Locale := en_GB | en_US | de_DE.

Definition pad2 (n : Z) : string :=
  if (n <? 10)%Z then "0" ++ string_of_Z n else string_of_Z n.

(** [d.toLocaleDateString(locales)]; with no argument the locale is the
    default one of the runtime. *)
Definition toLocaleDateString (defaultLocale : Locale) (locales : option Locale)
    (d : DateVal) : string :=
  match match locales with Some l => l | None => defaultLocale end with
  | en_GB => pad2 (day d) ++ "/" ++ pad2 (month d) ++ "/" ++ string_of_Z (year d)
  | en_US => string_of_Z (month d) ++ "/" ++ string_of_Z (day d) ++ "/" ++ string_of_Z (year d)
  | de_DE => string_of_Z (day d) ++ "." ++ string_of_Z (month d) ++ "." ++ string_of_Z (year d)
  end.

Definition is_digit (c : ascii) : bool :=
  let n := nat_of_ascii c in ((48 <=? n) && (n <=? 57))%nat.

(** The shape [DD/MM/YYYY]. *)
Definition is_DDMMYYYY (s : string) : bool :=
  match s with
  | String d1 (String d2 (String s1 (String m1 (String m2 (String s2
      (String y1 (String y2 (String y3 (String y4 EmptyString))))))))) =>
      is_digit d1 && is_digit d2 && Ascii.eqb s1 "/" && is_digit m1 && is_digit m2
      && Ascii.eqb s2 "/" && is_digit y1 && is_digit y2 && is_digit y3 && is_digit y4
  | _ => false
  end.

Definition valid_date (d : DateVal) : Prop :=
  1 <= day d <= 31 /\ 1 <= month d <= 12 /\ 1000 <= year d <= 9999.

(** ** [path.join] (POSIX)

    Node joins the non-empty arguments with [/] and normalises the result:
    empty and [.] segments are dropped and [..] removes the segment before
    it. *)

Fixpoint normalizeSegments (allowAboveRoot : bool) (acc segs : list string)
  : list string :=
  match segs with
  | [] => rev acc
  | seg :: rest =>
      if String.eqb seg "" || String.eqb seg "." then
        normalizeSegments allowAboveRoot acc rest
      else if String.eqb seg ".." then
        match acc with
        | top :: acc' =>
            if String.eqb top ".." then
              normalizeSegments allowAboveRoot
                (if allowAboveRoot then seg :: acc else acc) rest
            else normalizeSegments allowAboveRoot acc' rest
        | [] =>
            normalizeSegments allowAboveRoot
              (if allowAboveRoot then [seg] else []) rest
        end
      else normalizeSegments allowAboveRoot (seg :: acc) rest
  end.

Definition starts_with_slash (p : string) : bool :=
  match p with String c _ => Ascii.eqb c "/" | EmptyString => false end.

Fixpoint ends_with_slash (p : string) : bool :=
  match p with
  | EmptyString => false
  | String c EmptyString => Ascii.eqb c "/"
  | String _ p' => ends_with_slash p'
  end.

Definition path_normalize (p : string) : string :=
  if String.eqb p "" then "." else
  let isAbsolute := starts_with_slash p in
  let trailingSeparator := ends_with_slash p in
  let res := join "/" (normalizeSegments (negb isAbsolute) [] (split "/" p)) in
  if String.eqb res "" then
    (if isAbsolute then "/" else if trailingSeparator then "./" else ".")
  else
    let res := if trailingSeparator then res ++ "/" else res in
    if isAbsolute then "/" ++ res else res.

Definition path_join (args : list string) : string :=
  match filter (fun a => negb (String.eqb a "")) args with
  | [] => "."
  | parts => path_normalize (join "/" parts)
  end.

(** ** Data model *)

(** [creatorData], [approverData] and [issuerData]: the joined user rows. *)
Record UserData := { fullName : option string }.

(** Modelled from the spec: the type [Document] of [@shared/schema], which
    is not among the sources.  Its fields are those of DocumentMetadata in
    the specification, with the ones the service reads through
    [(document as any)]; a field that may be [null] is an [option]. *)
Record Document := {
  docName : string;
  docNumber : string;
  issueNo : option string;
  revisionNo : option Z;
  dateOfIssue : option DateVal;
  reviewDueDate : option DateVal;
  status : string;
  reasonForRevision : option string;
  headerInfo : option string;
  footerInfo : option string;
  content : option string;
  departmentNames : option (list string);
  preparerName : option string;
  creatorData : option UserData;
  approverName : option string;
  approverData : option UserData;
  issuerName : option string;
  issuerData : option UserData
}.

Record ControlCopyInfo := {
  userId : string;
  userFullName : string;
  controlCopyNumber : Z;
  date : string
}.

(** [data?.fullName]. *)
Definition fullName_of (data : option UserData) : option string :=
  match data with Some u => fullName u | None => None end.

(** [names?.[0]]. *)
Definition first_of (names : option (list string)) : option string :=
  match names with Some (n :: _) => Some n | _ => None end.

(** ** The PDF document built with pdf-lib

    A document is the list of its pages, a page the list of what was drawn on
    it, in drawing order.  The variable [page] of the source refers to a page
    of the document: it is the index of that page. *)

Inductive StandardFont := Helvetica | HelveticaBold.

Inductive DrawOp :=
| DrawText (text : string) (x y size : Z) (font : StandardFont)
| DrawRectangle (x y width height borderWidth : Z).

Definition Page := list DrawOp.
Definition PdfDoc := list Page.

Definition pageWidth : Z := 59528.
Definition pageHeight : Z := 84189.
Definition pt (n : Z) : Z := n * 100.

(** [pdfDoc.addPage([595.28, 841.89])]: the document with the new page, and
    the new page. *)
Definition addPage (doc : PdfDoc) : PdfDoc * nat :=
  ((doc ++ [[]])%list, List.length doc).

Fixpoint draw (doc : PdfDoc) (p : nat) (op : DrawOp) : PdfDoc :=
  match doc, p with
  | [], _ => []
  | ops :: rest, O => (ops ++ [op])%list :: rest
  | ops :: rest, S p' => ops :: draw rest p' op
  end.

Definition texts_of (pg : Page) : list string :=
  flat_map (fun op => match op with DrawText t _ _ _ _ => [t] | _ => [] end) pg.

(** ** The world outside *)

Inductive Res (A : Type) :=
| Ok (a : A)
| Err (message : string).
Arguments Ok {A} a.
Arguments Err {A} message.

Definition Buffer := list Byte.byte.

(** The options of [page.pdf]. *)
Record PdfOptions := {
  format : string;
  printBackground : bool;
  margin_top : string;
  margin_bottom : string;
  margin_left : string;
  margin_right : string;
  displayHeaderFooter : bool;
  headerTemplate : string;
  footerTemplate : string;
  preferCSSPageSize : bool
}.

Inductive Browser := BrowserHandle.

Inductive Event :=
| ConsoleLog (msg : string)
| ConsoleError (msg : string)
| FsAccess (path : string)
| FsReadFile (path : string)
| FsWriteFile (path : string) (data : Buffer)
| MammothConvertToHtml (buf : Buffer)
| MammothExtractRawText (buf : Buffer)
| PuppeteerLaunch
| BrowserNewPage
| PageSetContent (html : string)
| PageEvaluate
| PagePdf (options : PdfOptions)
| BrowserClose
| ImportPdfLib
| PDFDocumentCreate
| EmbedFont (font : StandardFont)
| PdfDocSave (doc : PdfDoc).

(** What each call to the outside answers.  [today] is [new Date()] and
    [Date_now] is [Date.now()]: the clock is read as standing still during one
    conversion.  [toUpperCase] is [String.prototype.toUpperCase] of the
    runtime: the service calls it and the model assumes nothing about its
    answer.  [page_drawText] tells whether pdf-lib can encode a text in the
    standard font. *)
Record Env := {
  process_cwd : string;
  defaultLocale : Locale;
  toUpperCase : string -> string;
  today : DateVal;
  Date_now : Z;
  fs_access : string -> Res unit;
  fs_readFile : string -> Res Buffer;
  fs_writeFile : string -> Buffer -> Res unit;
  mammoth_convertToHtml : Buffer -> Res string;
  mammoth_extractRawText : Buffer -> Res string;
  puppeteer_launch : Res Browser;
  browser_newPage : Res unit;
  page_setContent : string -> Res unit;
  page_evaluate : Res Z;
  page_pdf : PdfOptions -> Res Buffer;
  browser_close : Res unit;
  import_pdf_lib : Res unit;
  PDFDocument_create : Res unit;
  pdfDoc_embedFont : StandardFont -> Res unit;
  page_drawText : string -> Res unit;
  pdfDoc_save : PdfDoc -> Res Buffer
}.

(** ** The monad of the service: a trace of the calls made, the local
    variable [browser] of the primary renderer, and exceptions. *)

Record St := { trace : list Event; browser : option Browser }.

Definition M (A : Type) : Type := St -> Res A * St.

Definition ret {A} (a : A) : M A := fun s => (Ok a, s).
Definition throw {A} (message : string) : M A := fun s => (Err message, s).

Definition bind {A B} (m : M A) (k : A -> M B) : M B :=
  fun s => match m s with
           | (Ok a, s') => k a s'
           | (Err e, s') => (Err e, s')
           end.

Notation "x <- c1 ;; c2" := (bind c1 (fun x => c2))
  (at level 61, c1 at next level, right associativity).
Notation "c1 ;; c2" := (bind c1 (fun _ => c2))
  (at level 61, right associativity).

(** [try { m } catch (err) { handler(err.message) }]. *)
Definition try_catch {A} (m : M A) (handler : string -> M A) : M A :=
  fun s => match m s with
           | (Ok a, s') => (Ok a, s')
           | (Err e, s') => handler e s'
           end.

(** [try { m } finally { fin }]: [fin] runs on every exit of [m]; an
    exception of [fin] replaces the outcome of [m]. *)
Definition try_finally {A} (m : M A) (fin : M unit) : M A :=
  fun s => match m s with
           | (r, s') =>
               match fin s' with
               | (Ok _, s'') => (r, s'')
               | (Err e, s'') => (Err e, s'')
               end
           end.

(** An awaited call to the outside: it is recorded, then it answers. *)
Definition call {A} (e : Event) (answer : Res A) : M A :=
  fun s => (answer, {| trace := (trace s ++ [e])%list; browser := browser s |}).

Definition console_log (msg : string) : M unit := call (ConsoleLog msg) (Ok tt).
Definition console_error (msg : string) : M unit := call (ConsoleError msg) (Ok tt).

Definition set_browser (b : option Browser) : M unit :=
  fun s => (Ok tt, {| trace := trace s; browser := b |}).
Definition get_browser : M (option Browser) := fun s => (Ok (browser s), s).

Definition initial : St := {| trace := []; browser := None |}.

(** ** [PDFService] *)

Definition uploadsDir (env : Env) : string := path_join [process_cwd env; "uploads"].
Definition pdfsDir (env : Env) : string := path_join [process_cwd env; "pdfs"].

(** [wrapWithHeavyDutyTheme]; the locals the template does not use (issue
    number, dates, roles) are left out. *)
Definition wrapWithHeavyDutyTheme (env : Env) (document : Document)
    (body : string) (controlCopyInfo : option ControlCopyInfo) : string :=
    nl ++
    "<!DOCTYPE html>" ++ nl ++
    "<html>" ++ nl ++
    "<head>" ++ nl ++
    "  <style>" ++ nl ++
    "    @page { size: A4; margin: 160px 45px 160px 45px; }" ++ nl ++
    "    body { font-family: 'Segoe UI', Calibri, Arial, sans-serif; margin: 0; padding: 0; color: black; background: white; }" ++ nl ++
    "    .content-body { font-size: 11pt; line-height: 1.5; color: black; padding-top: 10px; }" ++ nl ++
    "    .content-body h1 { text-align: center; text-decoration: underline; font-size: 14pt; margin-bottom: 25px; font-weight: bold; }" ++ nl ++
    "    .document-table { width: 100%; border-collapse: collapse; margin-bottom: 20px; }" ++ nl ++
    "    .document-table td, .document-table th { border: 1pt solid black; padding: 8px; }" ++ nl ++
    "  </style>" ++ nl ++
    "</head>" ++ nl ++
    "<body>" ++ nl ++
    "  <div class=" ++ dq ++ "content-body" ++ dq ++ ">" ++ nl ++
    "    <h1>" ++ toUpperCase env (docName document) ++ "</h1>" ++ nl ++
    "    <div class=" ++ dq ++ "document-content" ++ dq ++ ">" ++ nl ++
    "      " ++ body ++ nl ++
    "    </div>" ++ nl ++
    "    " ++ match content document with
              | Some c => if String.eqb c "" then ""
                          else "<div style=" ++ dq ++ "margin-top: 20px;" ++ dq ++ ">" ++ c ++ "</div>"
              | None => ""
              end ++ nl ++
    "  </div>" ++ nl ++
    "</body>" ++ nl ++
    "</html>".

(** [getHeaderTemplate]: the running header of the primary path. *)
Definition getHeaderTemplate (env : Env) (document : Document) : string :=
  let dateOfIssue' :=
    match dateOfIssue document with
    | Some d => toLocaleDateString (defaultLocale env) (Some en_GB) d
    | None => toLocaleDateString (defaultLocale env) (Some en_GB) (today env)
    end in
  let dueDate :=
    match reviewDueDate document with
    | Some d => toLocaleDateString (defaultLocale env) (Some en_GB) d
    | None => "N/A"
    end in
  let revDate :=
    match dateOfIssue document with
    | Some d => toLocaleDateString (defaultLocale env) (Some en_GB) d
    | None => toLocaleDateString (defaultLocale env) (Some en_GB) (today env)
    end in
  let dueRevDate :=
    match reviewDueDate document with
    | Some d => toLocaleDateString (defaultLocale env) (Some en_GB) d
    | None => "N/A"
    end in
    nl ++
    "      <style>" ++ nl ++
    "        .header-container { margin: 0 45px; font-family: 'Segoe UI', Arial, sans-serif; }" ++ nl ++
    "        .header-table { width: 100%; border-collapse: collapse; border: 1pt solid #000; table-layout: fixed; }" ++ nl ++
    "        .header-table td { border: 1pt solid #000; padding: 4px 8px; vertical-align: middle; font-size: 8pt; }" ++ nl ++
    "        .company-name { text-align: center; font-weight: bold; font-size: 10pt; text-transform: uppercase; padding: 10px !important; }" ++ nl ++
    "        .bold-text { font-weight: bold; }" ++ nl ++
    "        .center-text { text-align: center; }" ++ nl ++
    "        .nowrap { white-space: nowrap; }" ++ nl ++
    "      </style>" ++ nl ++
    "      <div class=" ++ dq ++ "header-container" ++ dq ++ ">" ++ nl ++
    "        <table class=" ++ dq ++ "header-table" ++ dq ++ ">" ++ nl ++
    "          <tr>" ++ nl ++
    "            <td colspan=" ++ dq ++ "5" ++ dq ++ " class=" ++ dq ++ "company-name" ++ dq ++ ">NEELIKON FOOD DYES AND CHEMICALS LIMITED</td>" ++ nl ++
    "          </tr>" ++ nl ++
    "          <tr>" ++ nl ++
    "            <td style=" ++ dq ++ "width: 15%;" ++ dq ++ "><span class=" ++ dq ++ "bold-text" ++ dq ++ ">Issue No:</span> " ++ str_or (issueNo document) "01" ++ "</td>" ++ nl ++
    "            <td style=" ++ dq ++ "width: 25%;" ++ dq ++ "><span class=" ++ dq ++ "bold-text" ++ dq ++ ">Date of Issue:</span> " ++ dateOfIssue' ++ "</td>" ++ nl ++
    "            <td style=" ++ dq ++ "width: 15%;" ++ dq ++ "><span class=" ++ dq ++ "bold-text" ++ dq ++ ">Rev. No:</span> " ++ string_of_Z (num_or_zero (revisionNo document)) ++ "</td>" ++ nl ++
    "            <td style=" ++ dq ++ "width: 35%;" ++ dq ++ ">" ++ nl ++
    "              <div class=" ++ dq ++ "nowrap" ++ dq ++ "><span class=" ++ dq ++ "bold-text" ++ dq ++ ">Date of Rev. :</span> " ++ revDate ++ "</div>" ++ nl ++
    "              <div class=" ++ dq ++ "nowrap" ++ dq ++ "><span class=" ++ dq ++ "bold-text" ++ dq ++ ">Due Date of Rev. :</span> " ++ dueRevDate ++ "</div>" ++ nl ++
    "            </td>" ++ nl ++
    "            <td style=" ++ dq ++ "width: 10%;" ++ dq ++ " class=" ++ dq ++ "center-text" ++ dq ++ ">Page <span class=" ++ dq ++ "pageNumber" ++ dq ++ "></span> of <span class=" ++ dq ++ "totalPages" ++ dq ++ "></span></td>" ++ nl ++
    "          </tr>" ++ nl ++
    "          <tr>" ++ nl ++
    "            <td colspan=" ++ dq ++ "2" ++ dq ++ "><span class=" ++ dq ++ "bold-text" ++ dq ++ ">Dept. :</span> " ++ str_or (first_of (departmentNames document)) "Management Representative" ++ "</td>" ++ nl ++
    "            <td colspan=" ++ dq ++ "2" ++ dq ++ "><span class=" ++ dq ++ "bold-text" ++ dq ++ ">Title :</span> " ++ docName document ++ "</td>" ++ nl ++
    "            <td><span class=" ++ dq ++ "bold-text" ++ dq ++ ">Doc. No:</span> " ++ docNumber document ++ "</td>" ++ nl ++
    "          </tr>" ++ nl ++
    "        </table>" ++ nl ++
    "      </div>" ++ nl ++
    "    ".

(** The banner [getFooterTemplate] adds under the footer table when
    [controlCopyInfo] is truthy. *)
Definition controlCopyBanner (controlCopyInfo : option ControlCopyInfo) : string :=
  match controlCopyInfo with
  | Some info =>
    nl ++
    "          <div style=" ++ dq ++ "text-align: center; font-size: 7pt; color: #856404; background: #fff3cd; border: 0.5pt dashed #ffc107; padding: 2px; margin-top: 5px; width: calc(100% - 90px);" ++ dq ++ ">" ++ nl ++
    "            CONTROLLED COPY - NOT FOR REPRODUCTION | Printed by: " ++ userFullName info ++ nl ++
    "          </div>" ++ nl ++
    "        "
  | None => ""
  end.

(** [getFooterTemplate]: the running footer of the primary path. *)
Definition getFooterTemplate (env : Env) (document : Document)
    (controlCopyInfo : option ControlCopyInfo) : string :=
  let preparer :=
    str_or (preparerName document) (str_or (fullName_of (creatorData document)) "Asst. MR") in
  let approver :=
    str_or (approverName document) (str_or (fullName_of (approverData document)) "HOD") in
  let issuer :=
    str_or (issuerName document)
      (str_or (fullName_of (issuerData document)) "Management Representative { MR }") in
  let status := toUpperCase env (status document) in
    nl ++
    "      <style>" ++ nl ++
    "        .footer-container { margin: 0 45px; font-family: 'Segoe UI', Arial, sans-serif; width: 100%; }" ++ nl ++
    "        .footer-table { width: calc(100% - 90px); border-collapse: collapse; border: 1pt solid #000; table-layout: fixed; }" ++ nl ++
    "        .footer-table td { border: 1pt solid #000; padding: 4px; vertical-align: top; font-size: 8pt; height: 60px; }" ++ nl ++
    "        .footer-label { font-weight: bold; margin-bottom: 20px; display: block; }" ++ nl ++
    "        .footer-value { display: block; margin-top: auto; }" ++ nl ++
    "        .status-cell { vertical-align: middle !important; text-align: center; font-weight: bold; font-size: 10pt; }" ++ nl ++
    "      </style>" ++ nl ++
    "      <div class=" ++ dq ++ "footer-container" ++ dq ++ ">" ++ nl ++
    "        <table class=" ++ dq ++ "footer-table" ++ dq ++ ">" ++ nl ++
    "          <tr>" ++ nl ++
    "            <td style=" ++ dq ++ "width: 20%;" ++ dq ++ ">" ++ nl ++
    "              <span class=" ++ dq ++ "footer-label" ++ dq ++ ">Prepared by</span>" ++ nl ++
    "              <span class=" ++ dq ++ "footer-value" ++ dq ++ ">" ++ preparer ++ "</span>" ++ nl ++
    "            </td>" ++ nl ++
    "            <td style=" ++ dq ++ "width: 20%;" ++ dq ++ ">" ++ nl ++
    "              <span class=" ++ dq ++ "footer-label" ++ dq ++ ">Approved by</span>" ++ nl ++
    "              <span class=" ++ dq ++ "footer-value" ++ dq ++ ">" ++ approver ++ "</span>" ++ nl ++
    "            </td>" ++ nl ++
    "            <td style=" ++ dq ++ "width: 35%;" ++ dq ++ ">" ++ nl ++
    "              <span class=" ++ dq ++ "footer-label" ++ dq ++ ">Issued by</span>" ++ nl ++
    "              <span class=" ++ dq ++ "footer-value" ++ dq ++ ">" ++ issuer ++ "</span>" ++ nl ++
    "            </td>" ++ nl ++
    "            <td style=" ++ dq ++ "width: 25%" ++ dq ++ " class=" ++ dq ++ "status-cell" ++ dq ++ ">" ++ nl ++
    "              <span class=" ++ dq ++ "footer-label" ++ dq ++ ">Status</span>" ++ nl ++
    "              " ++ status ++ nl ++
    "            </td>" ++ nl ++
    "          </tr>" ++ nl ++
    "        </table>" ++ nl ++
    "        " ++ controlCopyBanner controlCopyInfo ++ nl ++
    "      </div>" ++ nl ++
    "    ".

(** The [footerTemplate] option of [page.pdf]. *)
Definition pdfFooterTemplate (footerHtml : string) : string :=
    nl ++
    "          <div style=" ++ dq ++ "width: 100%; font-size: 8pt; font-family: 'Segoe UI', Arial, sans-serif;" ++ dq ++ ">" ++ nl ++
    "            <script>" ++ nl ++
    "              (function() {" ++ nl ++
    "                const pageNum = document.querySelector('.pageNumber');" ++ nl ++
    "                const totalPages = document.querySelector('.totalPages');" ++ nl ++
    "                if (pageNum && totalPages && pageNum.textContent !== totalPages.textContent) {" ++ nl ++
    "                  document.body.style.display = 'none';" ++ nl ++
    "                }" ++ nl ++
    "              })();" ++ nl ++
    "            </script>" ++ nl ++
    "            " ++ footerHtml ++ nl ++
    "          </div>" ++ nl ++
    "        ".

Definition pdfOptions (headerHtml footerHtml : string) : PdfOptions :=
  {| format := "A4";
     printBackground := true;
     margin_top := "160px";
     margin_bottom := "180px";
     margin_left := "45px";
     margin_right := "45px";
     displayHeaderFooter := true;
     headerTemplate := headerHtml;
     footerTemplate := pdfFooterTemplate footerHtml;
     preferCSSPageSize := true |}.

(** The [try] block of [convertWordToPDFWithPuppeteer].  The style map given
    to mammoth and the launch arguments of the browser are constants of the
    call and are not recorded. *)
Definition puppeteerTry (env : Env) (wordFilePath : string)
    (document : Document) (controlCopyInfo : option ControlCopyInfo) : M string :=
  call (FsAccess wordFilePath) (fs_access env wordFilePath) ;;
  wordBuffer <- call (FsReadFile wordFilePath) (fs_readFile env wordFilePath) ;;
  htmlContent <- call (MammothConvertToHtml wordBuffer) (mammoth_convertToHtml env wordBuffer) ;;
  let fullHtml := wrapWithHeavyDutyTheme env document htmlContent controlCopyInfo in
  b <- call PuppeteerLaunch (puppeteer_launch env) ;;
  set_browser (Some b) ;;
  call BrowserNewPage (browser_newPage env) ;;
  call (PageSetContent fullHtml) (page_setContent env fullHtml) ;;
  call PageEvaluate (page_evaluate env) ;;
  let pdfFileName :=
    docNumber document ++ "_v" ++ template_of_num (revisionNo document)
    ++ "_final_" ++ string_of_Z (Date_now env) ++ ".pdf" in
  let pdfPath := path_join [pdfsDir env; pdfFileName] in
  let headerHtml := getHeaderTemplate env document in
  let footerHtml := getFooterTemplate env document controlCopyInfo in
  pdfBuffer <- call (PagePdf (pdfOptions headerHtml footerHtml))
                    (page_pdf env (pdfOptions headerHtml footerHtml)) ;;
  call (FsWriteFile pdfPath pdfBuffer) (fs_writeFile env pdfPath pdfBuffer) ;;
  ret pdfPath.

(** The [finally] block: [if (browser) await browser.close()]. *)
Definition puppeteerFinally (env : Env) : M unit :=
  b <- get_browser ;;
  match b with
  | Some _ => call BrowserClose (browser_close env)
  | None => ret tt
  end.

(** [convertWordToPDFWithPuppeteer]: the primary renderer. *)
Definition convertWordToPDFWithPuppeteer (env : Env) (wordFilePath : string)
    (document : Document) (controlCopyInfo : option ControlCopyInfo) : M string :=
  set_browser None ;;
  try_finally (puppeteerTry env wordFilePath document controlCopyInfo)
              (puppeteerFinally env).

(** [page.drawText]: pdf-lib throws on a text its font cannot encode. *)
Definition drawText (env : Env) (doc : PdfDoc) (p : nat) (text : string)
    (x y size : Z) (font : StandardFont) : M PdfDoc :=
  match page_drawText env text with
  | Ok _ => ret (draw doc p (DrawText text x y size font))
  | Err e => throw e
  end.

Definition drawRectangle (doc : PdfDoc) (p : nat) (x y width height borderWidth : Z)
  : PdfDoc :=
  draw doc p (DrawRectangle x y width height borderWidth).

(** The closure [drawHeader] of the fallback renderer. *)
Definition drawHeader (env : Env) (document : Document) (companyHeader : string)
    (doc : PdfDoc) (p : nat) : M PdfDoc :=
  let width := pageWidth in
  let height := pageHeight in
  doc <- drawText env doc p
           ("Document Name: " ++ substring0 60 (docName document)
            ++ " | Document Number: " ++ substring0 30 (docNumber document))
           (pt 45) (height - pt 30) 9 HelveticaBold ;;
  let doc := drawRectangle doc p (pt 40) (height - pt 135) (width - pt 80) (pt 95) 1 in
  doc <- drawText env doc p (substring0 70 companyHeader)
           (pt 50) (height - pt 60) 11 HelveticaBold ;;
  doc <- drawText env doc p
           ("Issue No: " ++ str_or (issueNo document) "01"
            ++ " | Revision No: " ++ string_of_Z (num_or_zero (revisionNo document)))
           (pt 45) (height - pt 85) 9 Helvetica ;;
  let dateOfIssue' :=
    match dateOfIssue document with
    | Some d => toLocaleDateString (defaultLocale env) None d
    | None => toLocaleDateString (defaultLocale env) None (today env)
    end in
  let dueDate :=
    match reviewDueDate document with
    | Some d => toLocaleDateString (defaultLocale env) None d
    | None => "N/A"
    end in
  doc <- drawText env doc p
           ("Date of Issue: " ++ dateOfIssue' ++ " | Due Date: " ++ dueDate)
           (pt 45) (height - pt 100) 9 Helvetica ;;
  drawText env doc p "Page: 1 of 1" (pt 45) (height - pt 115) 9 Helvetica.

(** The loop [for (const line of lines)] of the fallback renderer, on the
    variables [pdfDoc], [page] and [y] it updates. *)
Fixpoint drawLines (env : Env) (document : Document) (companyHeader : string)
    (lines : list string) (pdfDoc : PdfDoc) (page : nat) (y : Z)
  : M (PdfDoc * nat * Z) :=
  match lines with
  | [] => ret (pdfDoc, page, y)
  | line :: rest =>
      st <- (if (y <? pt 150)%Z then
               let (pdfDoc, page) := addPage pdfDoc in
               pdfDoc <- drawHeader env document companyHeader pdfDoc page ;;
               ret (pdfDoc, page, pageHeight - pt 170)
             else ret (pdfDoc, page, y)) ;;
      let '(pdfDoc, page, y) := st in
      let cleanLine := replace_non_printable (substring0 95 line) in
      pdfDoc <- drawText env pdfDoc page cleanLine (pt 50) y 10 Helvetica ;;
      drawLines env document companyHeader rest pdfDoc page (y - pt 15)
  end.

(** The [try] block of [convertWordToPDFAlternative]; [controlCopyInfo] is
    a parameter of the function that its body does not read. *)
Definition alternativeTry (env : Env) (wordFilePath : string)
    (document : Document) (controlCopyInfo : option ControlCopyInfo) : M string :=
  call ImportPdfLib (import_pdf_lib env) ;;
  wordBuffer <- call (FsReadFile wordFilePath) (fs_readFile env wordFilePath) ;;
  content <- call (MammothExtractRawText wordBuffer)
                  (mammoth_extractRawText env wordBuffer) ;;
  call PDFDocumentCreate (PDFDocument_create env) ;;
  call (EmbedFont Helvetica) (pdfDoc_embedFont env Helvetica) ;;
  call (EmbedFont HelveticaBold) (pdfDoc_embedFont env HelveticaBold) ;;
  let (pdfDoc, page) := addPage [] in
  let companyHeader := toUpperCase env (str_or (headerInfo document) "") in
  pdfDoc <- drawHeader env document companyHeader pdfDoc page ;;
  let y := pageHeight - pt 170 in
  let lines :=
    filter (fun l => (0 <? String.length (trim l))%nat) (split "010" content) in
  st <- drawLines env document companyHeader lines pdfDoc page y ;;
  let '(pdfDoc, page, y) := st in
  let pdfFileName :=
    docNumber document ++ "_v" ++ template_of_num (revisionNo document)
    ++ "_fallback_" ++ string_of_Z (Date_now env) ++ ".pdf" in
  let pdfPath := path_join [pdfsDir env; pdfFileName] in
  pdfBytes <- call (PdfDocSave pdfDoc) (pdfDoc_save env pdfDoc) ;;
  call (FsWriteFile pdfPath pdfBytes) (fs_writeFile env pdfPath pdfBytes) ;;
  ret pdfPath.

(** [convertWordToPDFAlternative]: the fallback renderer. *)
Definition convertWordToPDFAlternative (env : Env) (wordFilePath : string)
    (document : Document) (controlCopyInfo : option ControlCopyInfo) : M string :=
  try_catch
    (alternativeTry env wordFilePath document controlCopyInfo)
    (fun fallbackErr =>
       console_error ("[PDF] Fallback engine also failed: " ++ fallbackErr) ;;
       throw ("PDF generation failed completely: " ++ fallbackErr)).

(** [convertWordToPDF]: the coordinator. *)
Definition convertWordToPDF (env : Env) (wordFilePath : string)
    (document : Document) (controlCopyInfo : option ControlCopyInfo) : M string :=
  try_catch
    (console_log ("[PDF] Attempting Puppeteer PDF for: " ++ docNumber document) ;;
     convertWordToPDFWithPuppeteer env wordFilePath document controlCopyInfo)
    (fun err =>
       console_error ("[PDF] Puppeteer failed: " ++ err
                      ++ ". Switching to Professional Fallback...") ;;
       convertWordToPDFAlternative env wordFilePath document controlCopyInfo).

(** ** Concrete runs: documents and environments *)

(** The metadata of the scenarios:
    [{docNumber:"QC-SOP-001", revisionNo:2, status:"approved"}]. *)
Definition sampleDocument : Document :=
  {| docName := "Quality Manual";
     docNumber := "QC-SOP-001";
     issueNo := None;
     revisionNo := Some 2;
     dateOfIssue := Some {| year := 2024; month := 3; day := 5 |};
     reviewDueDate := None;
     status := "approved";
     reasonForRevision := None;
     headerInfo := Some "Acme Dyes Ltd";
     footerInfo := None;
     content := None;
     departmentNames := Some ["Quality Control"; "Production"];
     preparerName := None;
     creatorData := Some {| fullName := Some "A. Writer" |};
     approverName := None;
     approverData := None;
     issuerName := None;
     issuerData := None |}.

Definition sampleControlCopy : ControlCopyInfo :=
  {| userId := "u-17"; userFullName := "J. Smith"; controlCopyNumber := 3;
     date := "2024-03-06" |}.

(** An environment on a server in [/app], from the answers of mammoth (to
    both extractions), of the browser launch and of the default locale; every
    other call succeeds. *)
Definition environment (locale : Locale) (html text : Res string)
    (launch : Res Browser) : Env :=
  {| process_cwd := "/app";
     defaultLocale := locale;
     toUpperCase := upperCaseLatin1;
     today := {| year := 2026; month := 11; day := 2 |};
     Date_now := 1700000000000;
     fs_access := fun _ => Ok tt;
     fs_readFile := fun _ => Ok [];
     fs_writeFile := fun _ _ => Ok tt;
     mammoth_convertToHtml := fun _ => html;
     mammoth_extractRawText := fun _ => text;
     puppeteer_launch := launch;
     browser_newPage := Ok tt;
     page_setContent := fun _ => Ok tt;
     page_evaluate := Ok 0;
     page_pdf := fun _ => Ok [];
     browser_close := Ok tt;
     import_pdf_lib := Ok tt;
     PDFDocument_create := Ok tt;
     pdfDoc_embedFont := fun _ => Ok tt;
     page_drawText := fun _ => Ok tt;
     pdfDoc_save := fun _ => Ok [] |}.

(** The primary engine is available. *)
Definition env_available : Env :=
  environment en_US (Ok "<p>Scope</p>") (Ok ("Scope" ++ nl ++ "Purpose"))
    (Ok BrowserHandle).

(** The primary engine throws on launch. *)
Definition env_no_engine : Env :=
  environment en_US (Ok "<p>Scope</p>") (Ok ("Scope" ++ nl ++ "Purpose"))
    (Err "Failed to launch the browser process").

(** The source file is not a document: both extractions of mammoth throw. *)
Definition env_corrupt : Env :=
  environment en_US (Err "Can't find end of central directory")
    (Err "Can't find end of central directory") (Ok BrowserHandle).

(** ** Notions used in the statements *)

(** No [/] in a string. *)
Definition no_slash (s : string) : bool :=
  string_forallb (fun c => negb (Ascii.eqb c "/")) s.

(** A path segment that [path.join] keeps as it is. *)
Definition plain_segment (seg : string) : bool :=
  no_slash seg && negb (String.eqb seg "") && negb (String.eqb seg ".")
  && negb (String.eqb seg "..").

(** [t.startsWith(s)]. *)
Definition startsWith (s t : string) : bool := String.prefix s t.

Definition is_ok {A} (r : Res A) : bool :=
  match r with Ok _ => true | Err _ => false end.

(** How many events of a kind a trace holds. *)
Definition count (kind : Event -> bool) (t : list Event) : nat :=
  List.length (filter kind t).

Definition is_access (e : Event) : bool :=
  match e with FsAccess _ => true | _ => false end.
Definition is_launch (e : Event) : bool :=
  match e with PuppeteerLaunch => true | _ => false end.
Definition is_close (e : Event) : bool :=
  match e with BrowserClose => true | _ => false end.
Definition is_page_pdf (e : Event) : bool :=
  match e with PagePdf _ => true | _ => false end.
Definition is_import (e : Event) : bool :=
  match e with ImportPdfLib => true | _ => false end.
Definition is_create (e : Event) : bool :=
  match e with PDFDocumentCreate => true | _ => false end.
Definition is_save (e : Event) : bool :=
  match e with PdfDocSave _ => true | _ => false end.
Definition is_write (e : Event) : bool :=
  match e with FsWriteFile _ _ => true | _ => false end.

(** The events of a run from a state: what the run added to the trace. *)
Definition events {A} (m : M A) (s : St) : list Event :=
  skipn (List.length (trace s)) (trace (snd (m s))).

Definition result {A} (m : M A) (s : St) : Res A := fst (m s).

(** The document [pdfDoc.save()] was called on, and the options [page.pdf]
    was called with. *)
Fixpoint savedDocument (evs : list Event) : option PdfDoc :=
  match evs with
  | [] => None
  | PdfDocSave d :: _ => Some d
  | _ :: rest => savedDocument rest
  end.

Fixpoint printOptions (evs : list Event) : option PdfOptions :=
  match evs with
  | [] => None
  | PagePdf o :: _ => Some o
  | _ :: rest => printOptions rest
  end.

(** *** The layout of the fallback renderer, page by page *)

(** What [drawHeader] draws on a page. *)
Definition headerOps (env : Env) (document : Document) (companyHeader : string)
  : Page :=
  [ DrawText ("Document Name: " ++ substring0 60 (docName document)
              ++ " | Document Number: " ++ substring0 30 (docNumber document))
             (pt 45) (pageHeight - pt 30) 9 HelveticaBold;
    DrawRectangle (pt 40) (pageHeight - pt 135) (pageWidth - pt 80) (pt 95) 1;
    DrawText (substring0 70 companyHeader) (pt 50) (pageHeight - pt 60) 11 HelveticaBold;
    DrawText ("Issue No: " ++ str_or (issueNo document) "01"
              ++ " | Revision No: " ++ string_of_Z (num_or_zero (revisionNo document)))
             (pt 45) (pageHeight - pt 85) 9 Helvetica;
    DrawText ("Date of Issue: "
              ++ match dateOfIssue document with
                 | Some d => toLocaleDateString (defaultLocale env) None d
                 | None => toLocaleDateString (defaultLocale env) None (today env)
                 end
              ++ " | Due Date: "
              ++ match reviewDueDate document with
                 | Some d => toLocaleDateString (defaultLocale env) None d
                 | None => "N/A"
                 end)
             (pt 45) (pageHeight - pt 100) 9 Helvetica;
    DrawText "Page: 1 of 1" (pt 45) (pageHeight - pt 115) 9 Helvetica ].

Definition drawAll (doc : PdfDoc) (p : nat) (ops : list DrawOp) : PdfDoc :=
  fold_left (fun d op => draw d p op) ops doc.

(** The text drawn for a line. *)
Definition cleaned (line : string) : string :=
  replace_non_printable (substring0 95 line).

(** The lines of the extracted text that are drawn. *)
Definition contentLines (content : string) : list string :=
  filter (fun l => (0 <? String.length (trim l))%nat) (split "010" content).

Definition firstLineY : Z := pageHeight - pt 170.

(** The body of a page: its lines from [y] downwards, 15 points apart. *)
Fixpoint bodyOps (lines : list string) (y : Z) : Page :=
  match lines with
  | [] => []
  | line :: rest => DrawText (cleaned line) (pt 50) y 10 Helvetica :: bodyOps rest (y - pt 15)
  end.

(** As the specification words it: a page holds a fixed number of lines, and
    a line that finds the page full starts a new one. *)
Definition linesPerPage : nat := 35.

Fixpoint pagesOf (lines : list string) (done : list (list string)) (cur : list string)
  : list (list string) :=
  match lines with
  | [] => (done ++ [cur])%list
  | line :: rest =>
      if (linesPerPage <=? List.length cur)%nat
      then pagesOf rest (done ++ [cur])%list [line]
      else pagesOf rest done (cur ++ [line])%list
  end.

Definition pageOf (env : Env) (document : Document) (lines : list string) : Page :=
  (headerOps env document (toUpperCase env (str_or (headerInfo document) ""))
   ++ bodyOps lines firstLineY)%list.

Definition fallbackDocument (env : Env) (document : Document) (content : string)
  : PdfDoc :=
  map (pageOf env document) (pagesOf (contentLines content) [] []).

(** The texts of the body of a page: what follows the six drawings of the
    header. *)
Definition bodyTexts (pg : Page) : list string := texts_of (skipn 6 pg).

(** The names of the files written. *)
Definition finalName (env : Env) (document : Document) : string :=
  docNumber document ++ "_v" ++ template_of_num (revisionNo document)
  ++ "_final_" ++ string_of_Z (Date_now env) ++ ".pdf".

Definition fallbackName (env : Env) (document : Document) : string :=
  docNumber document ++ "_v" ++ template_of_num (revisionNo document)
  ++ "_fallback_" ++ string_of_Z (Date_now env) ++ ".pdf".

(** The extraction of each path: reading the source file and asking mammoth. *)
Definition primaryExtraction (env : Env) (wordFilePath : string) : Res string :=
  match fs_access env wordFilePath with
  | Err e => Err e
  | Ok _ =>
      match fs_readFile env wordFilePath with
      | Err e => Err e
      | Ok wordBuffer => mammoth_convertToHtml env wordBuffer
      end
  end.

Definition fallbackExtraction (env : Env) (wordFilePath : string) : Res string :=
  match fs_readFile env wordFilePath with
  | Err e => Err e
  | Ok wordBuffer => mammoth_extractRawText env wordBuffer
  end.

(** The two renderers and the tag each puts in the name of its file. *)
Inductive Renderer := Primary | Fallback.

Definition render (r : Renderer) : Env -> string -> Document ->
    option ControlCopyInfo -> M string :=
  match r with
  | Primary => convertWordToPDFWithPuppeteer
  | Fallback => convertWordToPDFAlternative
  end.

Definition engineTag (r : Renderer) : string :=
  match r with Primary => "final" | Fallback => "fallback" end.

(** *** More concrete runs *)

(** The runtime is started with the locale [en-GB] and the engine throws on
    launch. *)
Definition env_no_engine_GB : Env :=
  environment en_GB (Ok "<p>Scope</p>") (Ok ("Scope" ++ nl ++ "Purpose"))
    (Err "Failed to launch the browser process").

(** A document number that climbs out of a directory. *)
Definition climbingDocument : Document :=
  {| docName := docName sampleDocument;
     docNumber := "../QC-SOP-001";
     issueNo := issueNo sampleDocument;
     revisionNo := revisionNo sampleDocument;
     dateOfIssue := dateOfIssue sampleDocument;
     reviewDueDate := reviewDueDate sampleDocument;
     status := status sampleDocument;
     reasonForRevision := reasonForRevision sampleDocument;
     headerInfo := headerInfo sampleDocument;
     footerInfo := footerInfo sampleDocument;
     content := content sampleDocument;
     departmentNames := departmentNames sampleDocument;
     preparerName := preparerName sampleDocument;
     creatorData := creatorData sampleDocument;
     approverName := approverName sampleDocument;
     approverData := approverData sampleDocument;
     issuerName := issuerName sampleDocument;
     issuerData := issuerData sampleDocument |}.

(** A paragraph of one hundred characters. *)
Definition longLine : string :=
  "0123456789012345678901234567890123456789012345678901234567890123456789012345678901234567890123456789".

Definition env_long_line : Env :=
  environment en_US (Ok "<p>Scope</p>") (Ok longLine)
    (Err "Failed to launch the browser process").

(** A text of thirty-six paragraphs. *)
Definition env_two_pages : Env :=
  environment en_US (Ok "<p>Scope</p>") (Ok (join nl (repeat "Clause" 36)))
    (Err "Failed to launch the browser process").

(** The messages of the coordinator. *)
Definition attemptMessage (doc : Document) : string :=
  "[PDF] Attempting Puppeteer PDF for: " ++ docNumber doc.

Definition switchMessage (err : string) : string :=
  "[PDF] Puppeteer failed: " ++ err ++ ". Switching to Professional Fallback...".

(** [s] is a prefix of [t]. *)
Definition prefix_of (s t : string) : Prop := exists q, t = s ++ q.

(** A run only adds to the trace, and what it adds and returns does not
    depend on the state it starts from. *)
Definition tracks {A} (m : M A) : Prop :=
  forall s, result m s = result m initial
            /\ trace (snd (m s)) = (trace s ++ events m initial)%list.

(** Two digits; four digits. *)
Definition two_digits (s : string) : bool :=
  match s with
  | String a (String b EmptyString) => is_digit a && is_digit b
  | _ => false
  end.

Definition four_digits (s : string) : bool :=
  match s with
  | String a (String b (String c (String d EmptyString))) =>
      is_digit a && is_digit b && is_digit c && is_digit d
  | _ => false
  end.

(** ** The directories and the uploads of the service

    [initialize], [ensureDirectories], [saveUploadedFile] and
    [extractHeaderFooterFromWord].  Their calls to the file system are
    recorded in a trace of their own; [fs.mkdir] answers through
    [fs_mkdir]. *)

Inductive DirCall :=
| FsMkdir (path : string)
| FsWrite (path : string) (data : Buffer).

Record DirEnv := {
  outside : Env;
  fs_mkdir : string -> Res unit
}.

Definition D (A : Type) : Type := list DirCall -> Res A * list DirCall.

Definition dret {A} (a : A) : D A := fun t => (Ok a, t).

Definition dbind {A B} (m : D A) (k : A -> D B) : D B :=
  fun t => match m t with
           | (Ok a, t') => k a t'
           | (Err e, t') => (Err e, t')
           end.

Definition dcall {A} (c : DirCall) (answer : Res A) : D A :=
  fun t => (answer, (t ++ [c])%list).

(** [ensureDirectories]: both calls are [fs.mkdir(dir, { recursive: true })]. *)
Definition ensureDirectories (e : DirEnv) : D unit :=
  dbind (dcall (FsMkdir (uploadsDir (outside e))) (fs_mkdir e (uploadsDir (outside e))))
    (fun _ =>
       dcall (FsMkdir (pdfsDir (outside e))) (fs_mkdir e (pdfsDir (outside e)))).

Definition initialize (e : DirEnv) : D unit := ensureDirectories e.

Definition saveUploadedFile (e : DirEnv) (fileBuffer : Buffer)
    (originalName documentId : string) : D string :=
  dbind (ensureDirectories e)
    (fun _ =>
       let fileName :=
         documentId ++ "_" ++ string_of_Z (Date_now (outside e)) ++ "_" ++ originalName in
       let filePath := path_join [uploadsDir (outside e); fileName] in
       dbind (dcall (FsWrite filePath fileBuffer)
                (fs_writeFile (outside e) filePath fileBuffer))
         (fun _ => dret ("uploads/" ++ fileName))).

(** [extractHeaderFooterFromWord]: the pair [{ headerInfo, footerInfo }]. *)
Definition extractHeaderFooterFromWord (fileBuffer : Buffer) : string * string :=
  ("", "").

Definition is_fs_write (c : DirCall) : bool :=
  match c with FsWrite _ _ => true | FsMkdir _ => false end.

(** A server whose directories can be made. *)
Definition dirs_available : DirEnv :=
  {| outside := env_available; fs_mkdir := fun _ => Ok tt |}.

(** A server on which [/app/pdfs] cannot be made. *)
Definition dirs_read_only : DirEnv :=
  {| outside := env_available;
     fs_mkdir := fun p => if String.eqb p "/app/pdfs"
                          then Err "EACCES: permission denied, mkdir '/app/pdfs'"
                          else Ok tt |}.

(** *** Notions used in the further properties *)

(** The first of the candidates that is a non-empty string, as a chain of
    [||] picks it. *)
Fixpoint firstNonEmpty (candidates : list (option string)) (default : string) : string :=
  match candidates with
  | [] => default
  | Some s :: rest => if String.eqb s "" then firstNonEmpty rest default else s
  | None :: rest => firstNonEmpty rest default
  end.

(** A line of the body: a text in Helvetica 10 at [x = 50], not below the
    threshold of 150 points and not above the first line. *)
Definition body_line (op : DrawOp) : bool :=
  match op with
  | DrawText _ x y size Helvetica =>
      (x =? pt 50)%Z && (size =? 10)%Z && (pt 150 <=? y)%Z && (y <=? firstLineY)%Z
  | _ => false
  end.

(** The browser cannot be closed; every other call succeeds. *)
Definition env_close_fails : Env :=
  {| process_cwd := process_cwd env_available;
     defaultLocale := defaultLocale env_available;
     toUpperCase := toUpperCase env_available;
     today := today env_available;
     Date_now := Date_now env_available;
     fs_access := fs_access env_available;
     fs_readFile := fs_readFile env_available;
     fs_writeFile := fs_writeFile env_available;
     mammoth_convertToHtml := mammoth_convertToHtml env_available;
     mammoth_extractRawText := mammoth_extractRawText env_available;
     puppeteer_launch := puppeteer_launch env_available;
     browser_newPage := browser_newPage env_available;
     page_setContent := page_setContent env_available;
     page_evaluate := page_evaluate env_available;
     page_pdf := page_pdf env_available;
     browser_close := Err "Protocol error: Target closed";
     import_pdf_lib := import_pdf_lib env_available;
     PDFDocument_create := PDFDocument_create env_available;
     pdfDoc_embedFont := pdfDoc_embedFont env_available;
     page_drawText := page_drawText env_available;
     pdfDoc_save := pdfDoc_save env_available |}.

(** The extracted text is blank lines only. *)
Definition env_blank_text : Env :=
  environment en_US (Ok "") (Ok ("  " ++ nl ++ nl ++ " "))
    (Err "Failed to launch the browser process").

(** An environment in which pdf-lib answers [page.drawText] by [answer]. *)
Definition with_drawText (env : Env) (answer : string -> Res unit) : Env :=
  {| process_cwd := process_cwd env;
     defaultLocale := defaultLocale env;
     toUpperCase := toUpperCase env;
     today := today env;
     Date_now := Date_now env;
     fs_access := fs_access env;
     fs_readFile := fs_readFile env;
     fs_writeFile := fs_writeFile env;
     mammoth_convertToHtml := mammoth_convertToHtml env;
     mammoth_extractRawText := mammoth_extractRawText env;
     puppeteer_launch := puppeteer_launch env;
     browser_newPage := browser_newPage env;
     page_setContent := page_setContent env;
     page_evaluate := page_evaluate env;
     page_pdf := page_pdf env;
     browser_close := browser_close env;
     import_pdf_lib := import_pdf_lib env;
     PDFDocument_create := PDFDocument_create env;
     pdfDoc_embedFont := pdfDoc_embedFont env;
     page_drawText := answer;
     pdfDoc_save := pdfDoc_save env |}.

(** The engine throws on launch, and the font encodes the printable ASCII
    characters only. *)
Definition env_ascii_font : Env :=
  with_drawText env_no_engine
    (fun t => if string_forallb is_printable_ascii t then Ok tt
              else Err "WinAnsi cannot encode a character of the text").

(** A document whose name holds a tabulation. *)
Definition tabbedDocument : Document :=
  {| docName := "Quality" ++ String "009"%char "Manual";
     docNumber := docNumber sampleDocument;
     issueNo := issueNo sampleDocument;
     revisionNo := revisionNo sampleDocument;
     dateOfIssue := dateOfIssue sampleDocument;
     reviewDueDate := reviewDueDate sampleDocument;
     status := status sampleDocument;
     reasonForRevision := reasonForRevision sampleDocument;
     headerInfo := headerInfo sampleDocument;
     footerInfo := footerInfo sampleDocument;
     content := content sampleDocument;
     departmentNames := departmentNames sampleDocument;
     preparerName := preparerName sampleDocument;
     creatorData := creatorData sampleDocument;
     approverName := approverName sampleDocument;
     approverData := approverData sampleDocument;
     issuerName := issuerName sampleDocument;
     issuerData := issuerData sampleDocument |}.

(** A text that pdf-lib can draw in the standard font. *)
Definition drawable (env : Env) (text : string) : bool :=
  is_ok (page_drawText env text).

(** The number that a string of decimal digits writes. *)
Fixpoint digits_value_from (acc : Z) (s : string) : Z :=
  match s with
  | EmptyString => acc
  | String c s' => digits_value_from (10 * acc + (Z.of_nat (nat_of_ascii c) - 48)) s'
  end.

Definition digits_value (s : string) : Z := digits_value_from 0 s.

(** A document whose revision number is not set. *)
Definition unrevisedDocument : Document :=
  {| docName := docName sampleDocument;
     docNumber := docNumber sampleDocument;
     issueNo := issueNo sampleDocument;
     revisionNo := None;
     dateOfIssue := dateOfIssue sampleDocument;
     reviewDueDate := reviewDueDate sampleDocument;
     status := status sampleDocument;
     reasonForRevision := reasonForRevision sampleDocument;
     headerInfo := headerInfo sampleDocument;
     footerInfo := footerInfo sampleDocument;
     content := content sampleDocument;
     departmentNames := departmentNames sampleDocument;
     preparerName := preparerName sampleDocument;
     creatorData := creatorData sampleDocument;
     approverName := approverName sampleDocument;
     approverData := approverData sampleDocument;
     issuerName := issuerName sampleDocument;
     issuerData := issuerData sampleDocument |}.

(** * Properties *)

(** ** Strings *)

(** The capitals of the sample environments: [Cafe] with an acute accent
    becomes [CAFE] with the capital accented letter, and the sharp s becomes
    [SS], which makes the text one code unit longer. *)
Lemma upperCaseLatin1_samples :
  upperCaseLatin1 "approved" = "APPROVED"
  /\ upperCaseLatin1 ("Caf" ++ String "233"%char "") = "CAF" ++ String "201"%char ""
  /\ upperCaseLatin1 ("Stra" ++ String "223"%char "e") = "STRASSE"
  /\ upperCaseLatin1 (String "247"%char "") = String "247"%char "".
Proof. repeat split. Qed.

Lemma append_nil_r (s : string) : s ++ "" = s.
Proof. induction s; simpl; congruence. Qed.

Lemma append_assoc (a b c : string) : (a ++ b) ++ c = a ++ b ++ c.
Proof. induction a; simpl; congruence. Qed.

Lemma length_append (a b : string) :
  String.length (a ++ b) = (String.length a + String.length b)%nat.
Proof. induction a; simpl; congruence. Qed.

Lemma substring_0_append (s b : string) : substring 0 (String.length s) (s ++ b) = s.
Proof.
  induction s as [|c s IH]; simpl.
  - destruct b; reflexivity.
  - now rewrite IH.
Qed.

Lemma substring_skip_append (a t : string) (n : nat) :
  substring (String.length a) n (a ++ t) = substring 0 n t.
Proof. induction a; simpl; auto. Qed.

(** A text includes each of its infixes. *)
Lemma includes_infix (s a b : string) : includes s (a ++ s ++ b) = true.
Proof.
  unfold includes.
  destruct (index 0 s (a ++ s ++ b)) eqn:E; [reflexivity|].
  destruct s as [|c s].
  - apply index_correct4 in E. inversion E.
  - exfalso.
    apply (index_correct3 _ (String.length a) _ _ E); [discriminate | apply Nat.le_0_l |].
    rewrite substring_skip_append. apply substring_0_append.
Qed.

Lemma includes_sound (s t : string) :
  includes s t = true -> exists a b, t = a ++ s ++ b.
Proof.
  unfold includes. destruct (index 0 s t) as [m|] eqn:E; [intros _ | discriminate].
  pose proof (index_correct1 _ _ _ _ E) as H.
  clear E. revert m H. induction t as [|c t IH]; intros m H.
  - assert (s = "") as -> by (destruct m, s; simpl in H; congruence).
    exists "", "". reflexivity.
  - destruct m as [|m].
    + clear IH. exists "". simpl.
      revert s H. generalize (String c t) as u. clear.
      intros u s. revert u. induction s as [|d s IHs]; intros u H.
      * exists u. reflexivity.
      * destruct u as [|e u]; simpl in H; [discriminate|].
        injection H as -> H. destruct (IHs u H) as [b Hb].
        exists b. simpl. congruence.
    + simpl in H. destruct (IH m H) as (a & b & ->).
      exists (String c a), b. reflexivity.
Qed.

Lemma includes_append_r (s a t : string) :
  includes s t = true -> includes s (a ++ t) = true.
Proof.
  intros H. apply includes_sound in H. destruct H as (p & q & ->).
  rewrite <- append_assoc. apply includes_infix.
Qed.

Lemma includes_append_l (s t b : string) :
  includes s t = true -> includes s (t ++ b) = true.
Proof.
  intros H. apply includes_sound in H. destruct H as (p & q & ->).
  rewrite !append_assoc. apply includes_infix.
Qed.

Lemma includes_prefix (s b : string) : includes s (s ++ b) = true.
Proof. apply (includes_infix s "" b). Qed.

Lemma includes_refl (s : string) : includes s s = true.
Proof. rewrite <- (append_nil_r s) at 2. apply includes_prefix. Qed.

Lemma length_substring0 (n : nat) (s : string) :
  (String.length (substring0 n s) <= n)%nat.
Proof.
  unfold substring0. revert s. induction n as [|n IH]; intros [|c s]; simpl; auto.
  - apply Nat.le_0_l.
  - apply le_n_S, IH.
Qed.

Lemma substring0_short (n : nat) (s : string) :
  (String.length s <= n)%nat -> substring0 n s = s.
Proof.
  unfold substring0. revert s. induction n as [|n IH]; intros [|c s] H; simpl in *; auto.
  - inversion H.
  - f_equal. apply IH. now apply le_S_n.
Qed.

Lemma length_replace_non_printable (s : string) :
  String.length (replace_non_printable s) = String.length s.
Proof. induction s; simpl; congruence. Qed.

Lemma replace_non_printable_printable (s : string) :
  string_forallb is_printable_ascii (replace_non_printable s) = true.
Proof.
  induction s as [|c s IH]; simpl; [reflexivity|].
  rewrite IH, andb_true_r.
  destruct (is_printable_ascii c) eqn:E; [exact E | reflexivity].
Qed.

Lemma prefix_of_refl (s : string) : prefix_of s s.
Proof. exists "". now rewrite append_nil_r. Qed.

Lemma prefix_of_base (s q : string) : prefix_of s (s ++ q).
Proof. now exists q. Qed.

Lemma prefix_of_step (a s t : string) : prefix_of s t -> prefix_of (a ++ s) (a ++ t).
Proof. intros [q ->]. exists q. now rewrite append_assoc. Qed.

Lemma includes_of_prefix (s t : string) : prefix_of s t -> includes s t = true.
Proof. intros [q ->]. apply includes_prefix. Qed.

(** The infix may start inside the literal [lit], at its suffix [m]. *)
Lemma includes_from_suffix (p m lit s t : string) :
  lit = p ++ m -> prefix_of s t -> includes (m ++ s) (lit ++ t) = true.
Proof.
  intros -> [q ->]. rewrite append_assoc. apply includes_append_r.
  rewrite <- append_assoc. apply includes_prefix.
Qed.

Lemma includes_in_literal (s lit t : string) :
  includes s lit = true -> includes s (lit ++ t) = true.
Proof. apply includes_append_l. Qed.

Ltac prefix_chain :=
  first [ apply prefix_of_refl | apply prefix_of_base
        | apply prefix_of_step; prefix_chain ].

(** Finds an infix in a text that is a chain of [++]. *)
Ltac find_infix :=
  first
    [ apply includes_of_prefix; prefix_chain
    | match goal with
      | |- includes (String ?c ?m' ++ _) (String ?d ?lit' ++ _) = true =>
          let m := constr:(String c m') in
          let lit := constr:(String d lit') in
          let p := eval vm_compute in
                     (substring0 (String.length lit - String.length m) lit) in
          apply (includes_from_suffix p m lit); [ vm_compute; reflexivity | prefix_chain ]
      end
    | match goal with
      | |- includes (String _ _) (String _ _ ++ _) = true =>
          apply includes_in_literal; vm_compute; reflexivity
      end
    | apply includes_append_r; find_infix
    | apply includes_append_l; find_infix ].


(** ** [path.join] *)

Lemma split_nonempty (c : ascii) (s : string) : split c s <> [].
Proof.
  induction s as [|a s IH]; simpl; [discriminate|].
  destruct (Ascii.eqb a c); [discriminate|].
  destruct (split c s); [contradiction | discriminate].
Qed.

Lemma split_append (c : ascii) (a b : string) :
  split c (a ++ String c b) = (split c a ++ split c b)%list.
Proof.
  induction a as [|x a IH]; simpl.
  - now rewrite Ascii.eqb_refl.
  - destruct (Ascii.eqb x c); rewrite IH; [reflexivity|].
    pose proof (split_nonempty c a) as Hne.
    destruct (split c a); [contradiction | reflexivity].
Qed.

Lemma split_no_slash (s : string) : no_slash s = true -> split "/" s = [s].
Proof.
  induction s as [|a s IH]; simpl; [reflexivity|].
  intros H. apply andb_true_iff in H. destruct H as [Ha Hs].
  apply negb_true_iff in Ha. rewrite Ha, (IH Hs). reflexivity.
Qed.

Lemma no_slash_append (a b : string) :
  no_slash (a ++ b) = no_slash a && no_slash b.
Proof.
  unfold no_slash. induction a as [|x a IH]; simpl; [reflexivity|].
  now rewrite IH, andb_assoc.
Qed.

Lemma split_join (segs : list string) :
  segs <> [] -> Forall (fun seg => no_slash seg = true) segs ->
  split "/" (join "/" segs) = segs.
Proof.
  induction segs as [|x [|y r] IH]; intros Hne H; [contradiction | |].
  - simpl. apply split_no_slash. now inversion H.
  - change (join "/" (x :: y :: r)) with (x ++ String "/" (join "/" (y :: r))).
    inversion H as [|? ? Hx Hr]; subst.
    rewrite split_append, (split_no_slash x Hx), IH; [reflexivity | discriminate | exact Hr].
Qed.

Lemma join_snoc (segs : list string) (x : string) :
  segs <> [] -> join "/" (segs ++ [x]) = join "/" segs ++ "/" ++ x.
Proof.
  induction segs as [|a [|b r] IH]; intros Hne; [contradiction | reflexivity |].
  change (join "/" ((a :: b :: r) ++ [x])) with (a ++ "/" ++ join "/" ((b :: r) ++ [x])).
  rewrite IH by discriminate.
  change (join "/" (a :: b :: r)) with (a ++ "/" ++ join "/" (b :: r)).
  now rewrite !append_assoc.
Qed.

Lemma normalizeSegments_app (a : bool) (xs ys acc : list string) :
  normalizeSegments a acc (xs ++ ys)
  = normalizeSegments a (rev (normalizeSegments a acc xs)) ys.
Proof.
  revert acc. induction xs as [|x xs IH]; intros acc; simpl.
  - now rewrite rev_involutive.
  - destruct (String.eqb x "" || String.eqb x "."); [apply IH|].
    destruct (String.eqb x ".."); [|apply IH].
    destruct acc as [|top acc]; [apply IH|].
    destruct (String.eqb top ".."); apply IH.
Qed.

Lemma plain_segment_inv (seg : string) :
  plain_segment seg = true ->
  no_slash seg = true /\ String.eqb seg "" = false /\ String.eqb seg "." = false
  /\ String.eqb seg ".." = false.
Proof.
  unfold plain_segment. rewrite !andb_true_iff, !negb_true_iff. tauto.
Qed.

Lemma normalizeSegments_plain (a : bool) (segs acc : list string) :
  Forall (fun seg => plain_segment seg = true) segs ->
  normalizeSegments a acc segs = (rev acc ++ segs)%list.
Proof.
  intros H. revert acc. induction H as [|x segs Hx _ IH]; intros acc; simpl.
  - now rewrite app_nil_r.
  - apply plain_segment_inv in Hx. destruct Hx as (_ & E1 & E2 & E3).
    rewrite E1, E2, E3. simpl. rewrite IH. simpl. now rewrite <- app_assoc.
Qed.

Lemma split_segments_no_slash (s : string) :
  Forall (fun seg => no_slash seg = true) (split "/" s).
Proof.
  induction s as [|a s IH]; simpl; [repeat constructor|].
  destruct (Ascii.eqb a "/") eqn:E; [constructor; [reflexivity | exact IH]|].
  destruct (split "/" s) as [|seg rest].
  - constructor; [|constructor]. unfold no_slash. simpl. now rewrite E.
  - inversion IH; subst. constructor; [|assumption].
    unfold no_slash in *. simpl. now rewrite E.
Qed.

(** Under a root, [path.join] leaves only plain segments. *)
Lemma normalizeSegments_root_plain (segs acc : list string) :
  Forall (fun seg => no_slash seg = true) segs ->
  Forall (fun seg => plain_segment seg = true) acc ->
  Forall (fun seg => plain_segment seg = true) (normalizeSegments false acc segs).
Proof.
  intros H. revert acc. induction H as [|x segs Hx _ IH]; intros acc Hacc; simpl.
  - now apply Forall_rev.
  - destruct (String.eqb x "") eqn:E1; [now apply IH|].
    destruct (String.eqb x ".") eqn:E2; [now apply IH|].
    simpl. destruct (String.eqb x "..") eqn:E3.
    + destruct acc as [|top acc]; [now apply IH|].
      destruct (String.eqb top ".."); apply IH; [assumption | now inversion Hacc].
    + apply IH. constructor; [|assumption].
      unfold plain_segment. now rewrite Hx, E1, E2, E3.
Qed.

Lemma ends_with_slash_append (a b : string) :
  b <> "" -> ends_with_slash (a ++ b) = ends_with_slash b.
Proof.
  intros Hb. induction a as [|x a IH]; [reflexivity|].
  simpl. rewrite IH. destruct (a ++ b) eqn:E; [|reflexivity].
  destruct a; simpl in E; [contradiction | discriminate].
Qed.

Lemma no_slash_ends (s : string) : no_slash s = true -> ends_with_slash s = false.
Proof.
  induction s as [|a s IH]; [reflexivity|].
  unfold no_slash. simpl. intros H. apply andb_true_iff in H. destruct H as [Ha Hs].
  destruct s; [now apply negb_true_iff in Ha | now apply IH].
Qed.

Lemma join_plain_nonempty (segs : list string) :
  segs <> [] -> Forall (fun seg => plain_segment seg = true) segs ->
  String.eqb (join "/" segs) "" = false.
Proof.
  intros Hne H. destruct segs as [|x r]; [contradiction|].
  inversion H as [|? ? Hx _]; subst. apply plain_segment_inv in Hx.
  destruct Hx as (_ & E & _). destruct x; [discriminate|].
  destruct r; reflexivity.
Qed.

Lemma plain_no_slash (segs : list string) :
  Forall (fun seg => plain_segment seg = true) segs ->
  Forall (fun seg => no_slash seg = true) segs.
Proof.
  apply Forall_impl. intros seg H. now apply plain_segment_inv in H.
Qed.

(** Joining a plain name to a normalised absolute directory appends it. *)
Lemma path_join_under (segs : list string) (name : string) :
  segs <> [] -> Forall (fun seg => plain_segment seg = true) segs ->
  plain_segment name = true ->
  path_join ["/" ++ join "/" segs; name] = ("/" ++ join "/" segs) ++ "/" ++ name.
Proof.
  intros Hne Hsegs Hname.
  pose proof (plain_segment_inv _ Hname) as (Hns & Hn0 & _ & _).
  assert (Hnn : name <> "") by (intros ->; discriminate).
  unfold path_join. simpl filter. rewrite Hn0. simpl negb. cbv iota.
  change (join "/" [String "/" (join "/" segs); name])
    with (String "/" (join "/" segs ++ String "/" name)).
  unfold path_normalize.
  change (String.eqb (String "/" (join "/" segs ++ String "/" name)) "") with false.
  cbv iota. change (starts_with_slash (String "/" (join "/" segs ++ String "/" name))) with true.
  cbv zeta. simpl negb.
  assert (Ht : ends_with_slash (String "/" (join "/" segs ++ String "/" name)) = false).
  { replace (String "/" (join "/" segs ++ String "/" name))
      with (("/" ++ join "/" segs ++ "/") ++ name).
    - rewrite ends_with_slash_append by exact Hnn. now apply no_slash_ends.
    - simpl. now rewrite append_assoc. }
  rewrite Ht.
  change (split "/" (String "/" (join "/" segs ++ String "/" name)))
    with ("" :: split "/" (join "/" segs ++ String "/" name)).
  rewrite split_append, split_join, (split_no_slash name Hns);
    [| exact Hne | now apply plain_no_slash].
  change (normalizeSegments false [] ("" :: segs ++ [name])%list)
    with (normalizeSegments false [] (segs ++ [name])%list).
  rewrite normalizeSegments_plain
    by (apply Forall_app; split; [assumption | now constructor]).
  simpl rev. simpl app.
  rewrite join_plain_nonempty;
    [| now destruct segs | apply Forall_app; split; [assumption | now constructor]].
  rewrite join_snoc by exact Hne. reflexivity.
Qed.

Lemma snoc_nonempty {A} (l : list A) (x : A) : (l ++ [x])%list <> [].
Proof. destruct l; discriminate. Qed.

(** The output directory is a normalised absolute path. *)
Lemma pdfsDir_shape (cwd : string) :
  starts_with_slash cwd = true ->
  exists segs, segs <> [] /\ Forall (fun seg => plain_segment seg = true) segs
               /\ path_join [cwd; "pdfs"] = "/" ++ join "/" segs.
Proof.
  intros Habs. destruct cwd as [|c cwd]; [discriminate|].
  pose (N := normalizeSegments false [] (split "/" (String c cwd))).
  assert (Hplain : Forall (fun seg => plain_segment seg = true) (N ++ ["pdfs"])%list).
  { apply Forall_app. split; [|repeat constructor].
    apply normalizeSegments_root_plain; [apply split_segments_no_slash | constructor]. }
  exists (N ++ ["pdfs"])%list.
  split; [apply snoc_nonempty|]. split; [exact Hplain|].
  unfold path_join. simpl filter. cbv iota.
  change (join "/" [String c cwd; "pdfs"]) with (String c cwd ++ String "/" "pdfs").
  unfold path_normalize.
  change (String.eqb (String c cwd ++ String "/" "pdfs") "") with false. cbv iota.
  change (starts_with_slash (String c cwd ++ String "/" "pdfs"))
    with (starts_with_slash (String c cwd)).
  rewrite Habs. cbv zeta. simpl negb.
  rewrite split_append. change (split "/" "pdfs") with ["pdfs"].
  rewrite normalizeSegments_app. fold N.
  change (normalizeSegments false (rev N) ["pdfs"]) with (rev ("pdfs" :: rev N)).
  simpl rev. rewrite rev_involutive.
  rewrite join_plain_nonempty; [| apply snoc_nonempty | exact Hplain].
  replace (ends_with_slash (String c cwd ++ String "/" "pdfs")) with false; [reflexivity|].
  symmetry. change (String "/" "pdfs") with ("/" ++ "pdfs").
  rewrite <- append_assoc. rewrite ends_with_slash_append by discriminate. reflexivity.
Qed.

(** ** Runs *)

Lemma skipn_length_app {A} (l r : list A) : skipn (List.length l) (l ++ r) = r.
Proof. induction l; simpl; auto. Qed.

(** Splits on the answer of the next call to the outside. *)
Ltac run_step :=
  match goal with
  | |- context [match ?r with Ok _ => _ | Err _ => _ end] =>
      lazymatch r with
      | match _ with Ok _ => _ | Err _ => _ end => fail
      | _ => destruct r eqn:?
      end
  end.

(** Opens a run of the primary renderer. *)
Ltac unfold_primary :=
  unfold events, result, convertWordToPDFWithPuppeteer, puppeteerTry,
    puppeteerFinally, try_finally, bind, call, set_browser, get_browser, ret;
  cbn [fst snd trace browser].

(** ** Drawing

    What the fallback renderer draws for one document in one environment. *)

Section Drawing.

Variable env : Env.
Variable doc : Document.

Lemma drawText_run d p t x y sz f s :
  drawText env d p t x y sz f s
  = (match page_drawText env t with
     | Ok _ => Ok (draw d p (DrawText t x y sz f))
     | Err e => Err e
     end, s).
Proof. unfold drawText. destruct (page_drawText env t); reflexivity. Qed.

Lemma drawHeader_run ch d p s :
  drawHeader env doc ch d p s = (result (drawHeader env doc ch d p) initial, s).
Proof.
  unfold result, drawHeader, drawRectangle, bind. rewrite !drawText_run.
  repeat (run_step; cbn [fst snd]; rewrite ?drawText_run); reflexivity.
Qed.

Lemma drawHeader_ok ch d p d' :
  result (drawHeader env doc ch d p) initial = Ok d' ->
  d' = drawAll d p (headerOps env doc ch).
Proof.
  unfold result, drawHeader, drawRectangle, bind. rewrite !drawText_run.
  repeat (run_step; cbn [fst snd]; rewrite ?drawText_run);
    cbn [fst snd]; intros H; inversion H; reflexivity.
Qed.

Lemma drawLines_run ch lines d p y s :
  drawLines env doc ch lines d p y s
  = (result (drawLines env doc ch lines d p y) initial, s).
Proof.
  revert d p y s. induction lines as [|l lines IH]; intros d p y s; [reflexivity|].
  unfold result. cbn [drawLines]. unfold bind, ret, addPage.
  destruct (y <? pt 150)%Z.
  - rewrite (drawHeader_run _ _ _ s), (drawHeader_run _ _ _ initial).
    destruct (result (drawHeader env doc ch (d ++ [[]])%list (List.length d)) initial);
      [|reflexivity].
    rewrite !drawText_run. destruct (page_drawText env _); [|reflexivity].
    rewrite (IH _ _ _ s), (IH _ _ _ initial). reflexivity.
  - rewrite !drawText_run. destruct (page_drawText env _); [|reflexivity].
    rewrite (IH _ _ _ s), (IH _ _ _ initial). reflexivity.
Qed.

Lemma draw_last (pages : list Page) (ops : Page) (op : DrawOp) :
  draw (pages ++ [ops])%list (List.length pages) op = (pages ++ [ops ++ [op]])%list.
Proof. induction pages as [|pg pages IH]; simpl; [reflexivity | now rewrite IH]. Qed.

Lemma drawAll_last (pages : list Page) (ops new : Page) :
  drawAll (pages ++ [ops])%list (List.length pages) new = (pages ++ [ops ++ new])%list.
Proof.
  unfold drawAll. revert ops. induction new as [|op new IH]; intros ops; simpl.
  - now rewrite app_nil_r.
  - rewrite draw_last, IH, <- app_assoc. reflexivity.
Qed.

Lemma bodyOps_snoc (lines : list string) (line : string) (y : Z) :
  bodyOps (lines ++ [line]) y
  = (bodyOps lines y
     ++ [DrawText (cleaned line) (pt 50) (y - pt 15 * Z.of_nat (List.length lines)) 10
           Helvetica])%list.
Proof.
  revert y. induction lines as [|l lines IH]; intros y.
  - cbn [app bodyOps List.length].
    replace (y - pt 15 * Z.of_nat 0) with y by (unfold pt; lia). reflexivity.
  - cbn [app bodyOps List.length]. rewrite IH.
    replace (y - pt 15 - pt 15 * Z.of_nat (List.length lines))
      with (y - pt 15 * Z.of_nat (S (List.length lines))) by (unfold pt; lia).
    reflexivity.
Qed.

(** The threshold of the loop, in lines: [y < 150] on a page that holds
    [n] lines is [35 <= n]. *)
Lemma threshold_in_lines (n : nat) :
  (firstLineY - pt 15 * Z.of_nat n <? pt 150)%Z = (linesPerPage <=? n)%nat.
Proof.
  unfold firstLineY, pageHeight, pt, linesPerPage.
  destruct (Nat.leb_spec 35 n); [apply Z.ltb_lt | apply Z.ltb_ge]; lia.
Qed.

Lemma pageOf_nil :
  pageOf env doc [] = headerOps env doc (toUpperCase env (str_or (headerInfo doc) "")).
Proof. unfold pageOf. cbn [bodyOps]. apply app_nil_r. Qed.

Lemma pageOf_snoc cur l :
  pageOf env doc (cur ++ [l])
  = (pageOf env doc cur
     ++ [DrawText (cleaned l) (pt 50)
           (firstLineY - pt 15 * Z.of_nat (List.length cur)) 10 Helvetica])%list.
Proof. unfold pageOf. now rewrite bodyOps_snoc, app_assoc. Qed.

(** The loop draws the pages of [pagesOf]. *)
Lemma drawLines_pages lines :
  forall done cur r,
    result (drawLines env doc (toUpperCase env (str_or (headerInfo doc) "")) lines
              (map (pageOf env doc) done ++ [pageOf env doc cur])%list
              (List.length done)
              (firstLineY - pt 15 * Z.of_nat (List.length cur))) initial = Ok r ->
    fst (fst r) = map (pageOf env doc) (pagesOf lines done cur).
Proof.
  induction lines as [|l lines IH]; intros done cur r.
  - unfold result. cbn [drawLines pagesOf]. unfold ret. cbn [fst].
    set (d0 := (map (pageOf env doc) done ++ [pageOf env doc cur])%list).
    set (y0 := firstLineY - pt 15 * Z.of_nat (List.length cur)).
    intros H. injection H as <-. cbn [fst]. subst d0. now rewrite map_app.
  - unfold result. cbn [drawLines pagesOf]. unfold bind, ret, addPage.
    rewrite threshold_in_lines. destruct (linesPerPage <=? List.length cur)%nat.
    + rewrite drawHeader_run.
      destruct (result (drawHeader _ _ _ _ _) initial) as [d1|] eqn:Hh; [|discriminate].
      apply drawHeader_ok in Hh. cbn [fst snd].
      rewrite drawText_run. destruct (page_drawText env _); [|discriminate].
      cbn [fst snd]. intros H. apply (IH (done ++ [cur])%list [l]).
      rewrite drawAll_last in Hh. cbn [app] in Hh. rewrite <- pageOf_nil in Hh.
      assert (E : (map (pageOf env doc) done ++ [pageOf env doc cur])%list
                  = map (pageOf env doc) (done ++ [cur])) by now rewrite map_app.
      rewrite E in *. subst d1.
      rewrite draw_last, length_map in H.
      change (pageOf env doc [] ++ [DrawText (replace_non_printable (substring0 95 l))
                (pt 50) (pageHeight - pt 170) 10 Helvetica])%list
        with (pageOf env doc [] ++ [DrawText (cleaned l) (pt 50)
                (firstLineY - pt 15 * Z.of_nat (@List.length string [])) 10 Helvetica])%list in H.
      rewrite <- (pageOf_snoc [] l) in H.
      exact H.
    + rewrite drawText_run. destruct (page_drawText env _); [|discriminate].
      cbn [fst snd]. intros H. apply (IH done (cur ++ [l])%list).
      rewrite <- (length_map (pageOf env doc) done) in H at 1.
      rewrite draw_last in H.
      change (replace_non_printable (substring0 95 l)) with (cleaned l) in H.
      rewrite <- pageOf_snoc in H. unfold result.
      replace (firstLineY - pt 15 * Z.of_nat (List.length (cur ++ [l])))
        with (firstLineY - pt 15 * Z.of_nat (List.length cur) - pt 15);
        [exact H|].
      rewrite length_app. cbn [List.length]. unfold pt. lia.
Qed.

End Drawing.

(** ** Runs of the fallback renderer *)

(** The templates and the path stay folded while a run is opened. *)
Arguments path_join : simpl never.
Arguments string_of_Z : simpl never.
Arguments getHeaderTemplate : simpl never.
Arguments getFooterTemplate : simpl never.
Arguments wrapWithHeavyDutyTheme : simpl never.
Arguments pdfOptions : simpl never.
Arguments append : simpl never.

Ltac oracle_step := run_step; cbn [fst snd trace browser].

(** Opens a run of the fallback renderer. *)
Ltac unfold_fallback :=
  unfold events, result, convertWordToPDFAlternative, alternativeTry, try_catch,
    bind, console_error, call, ret, throw, addPage;
  cbn [fst snd trace browser List.length app].

(** A fallback render that succeeds has saved [fallbackDocument] and written
    it under the fallback name. *)
Lemma fallback_success env path doc cc s p :
  result (convertWordToPDFAlternative env path doc cc) s = Ok p ->
  exists buf content,
    fs_readFile env path = Ok buf
    /\ mammoth_extractRawText env buf = Ok content
    /\ savedDocument (events (convertWordToPDFAlternative env path doc cc) s)
       = Some (fallbackDocument env doc content)
    /\ p = path_join [pdfsDir env; fallbackName env doc].
Proof.
  unfold_fallback.
  do 6 (oracle_step; [|discriminate]).
  rewrite drawHeader_run. cbn [fst snd].
  destruct (result (drawHeader _ _ _ _ _) initial) as [d1|] eqn:Hh; [|discriminate].
  apply drawHeader_ok in Hh.
  rewrite (drawAll_last [] []) in Hh. cbn [app] in Hh. rewrite <- pageOf_nil in Hh.
  subst d1. rewrite drawLines_run. cbn [fst snd].
  destruct (result (drawLines _ _ _ _ _ _ _) initial) as [[[d2 p2] y2]|] eqn:Hl;
    [|discriminate].
  change [pageOf env doc []]
    with (map (pageOf env doc) [] ++ [pageOf env doc []])%list in Hl.
  change (pageHeight - pt 170)
    with (firstLineY - pt 15 * Z.of_nat (@List.length string [])) in Hl.
  apply (drawLines_pages env doc _ [] []) in Hl. cbn [fst snd] in Hl. subst d2.
  do 2 (oracle_step; [|discriminate]).
  intros H. inversion H.
  match goal with
  | H1 : fs_readFile _ _ = Ok ?b, H2 : mammoth_extractRawText _ ?b = Ok ?c |- _ =>
      exists b, c; split; [reflexivity|]; split; [exact H2|]
  end.
  split; [|reflexivity].
  rewrite <- !app_assoc, skipn_length_app. reflexivity.
Qed.

(** ** Runs and their traces *)

Lemma tracks_events {A} (m : M A) (s : St) :
  tracks m -> events m s = events m initial.
Proof.
  intros H. unfold events at 1. destruct (H s) as [_ ->]. apply skipn_length_app.
Qed.

Lemma count_app kind (a b : list Event) :
  count kind (a ++ b) = (count kind a + count kind b)%nat.
Proof. unfold count. now rewrite filter_app, length_app. Qed.

(** Brings a trace to the form [trace s ++ [e1; ...; en]]. *)
Ltac trace_norm :=
  repeat (progress (cbn [fst snd trace browser initial app skipn List.length];
                    rewrite <- ?app_assoc; rewrite ?skipn_length_app)).

Lemma primary_tracks env path doc cc :
  tracks (convertWordToPDFWithPuppeteer env path doc cc).
Proof.
  intros s. unfold_primary.
  repeat oracle_step; split; try reflexivity; trace_norm; reflexivity.
Qed.

Lemma fallback_tracks env path doc cc :
  tracks (convertWordToPDFAlternative env path doc cc).
Proof.
  intros s. unfold_fallback.
  do 6 (oracle_step; [|split; [reflexivity | trace_norm; reflexivity]]).
  rewrite !drawHeader_run. cbn [fst snd].
  destruct (result (drawHeader _ _ _ _ _) initial) as [d1|];
    [|split; [reflexivity | trace_norm; reflexivity]].
  rewrite !drawLines_run. cbn [fst snd].
  destruct (result (drawLines _ _ _ _ _ _ _) initial) as [[[d2 p2] y2]|];
    [|split; [reflexivity | trace_norm; reflexivity]].
  repeat oracle_step; split; try reflexivity; trace_norm; reflexivity.
Qed.

(** ** The coordinator *)

Lemma tracks_run {A} (m : M A) (s : St) :
  tracks m ->
  fst (m s) = result m initial /\ trace (snd (m s)) = (trace s ++ events m initial)%list.
Proof. intros H. exact (H s). Qed.

(** What the coordinator does, in terms of its two stages. *)
Lemma coordinator_events env path doc cc :
  events (convertWordToPDF env path doc cc) initial
  = (ConsoleLog (attemptMessage doc)
     :: events (convertWordToPDFWithPuppeteer env path doc cc) initial
     ++ match result (convertWordToPDFWithPuppeteer env path doc cc) initial with
        | Ok _ => []
        | Err e => ConsoleError (switchMessage e)
                   :: events (convertWordToPDFAlternative env path doc cc) initial
        end)%list
  /\ result (convertWordToPDF env path doc cc) initial
     = match result (convertWordToPDFWithPuppeteer env path doc cc) initial with
       | Ok p => Ok p
       | Err _ => result (convertWordToPDFAlternative env path doc cc) initial
       end.
Proof.
  set (s1 := {| trace := [ConsoleLog (attemptMessage doc)]; browser := None |}).
  destruct (tracks_run _ s1 (primary_tracks env path doc cc)) as [Hr Ht].
  remember (result (convertWordToPDFWithPuppeteer env path doc cc) initial) as rp.
  remember (events (convertWordToPDFWithPuppeteer env path doc cc) initial) as ep.
  remember (result (convertWordToPDFAlternative env path doc cc) initial) as rf.
  remember (events (convertWordToPDFAlternative env path doc cc) initial) as ef.
  unfold events, result, convertWordToPDF, try_catch, bind, console_log,
    console_error, call.
  cbn [fst snd trace browser initial app List.length skipn].
  fold (attemptMessage doc). fold s1.
  destruct (convertWordToPDFWithPuppeteer env path doc cc s1) as [[p|e] s2];
    cbn [fst snd] in *; rewrite <- Hr.
  - rewrite Ht. split; [|reflexivity]. cbn [trace s1 app]. now rewrite app_nil_r.
  - fold (switchMessage e).
    set (s3 := {| trace := (trace s2 ++ [ConsoleError _])%list; browser := browser s2 |}).
    destruct (tracks_run _ s3 (fallback_tracks env path doc cc)) as [Hr' Ht'].
    rewrite Ht', Hr', <- Heqrf, <- Heqef. split; [|reflexivity].
    cbn [trace s3]. rewrite Ht. cbn [trace s1 app]. rewrite <- app_assoc. reflexivity.
Qed.

Lemma fallback_result env path doc cc s :
  result (convertWordToPDFAlternative env path doc cc) s
  = match result (alternativeTry env path doc cc) s with
    | Ok p => Ok p
    | Err m => Err ("PDF generation failed completely: " ++ m)
    end.
Proof.
  unfold result, convertWordToPDFAlternative, try_catch.
  destruct (alternativeTry env path doc cc s) as [[p|m] s']; reflexivity.
Qed.

(** Counts the events of a trace that is known call by call. *)
Ltac count_goals :=
  unfold count; cbn [filter List.length is_access is_launch is_close is_page_pdf
                     is_import is_create is_save is_write existsb orb andb is_ok last];
  repeat split; try reflexivity; try lia.

Lemma primary_counts env path doc cc :
  let evs := events (convertWordToPDFWithPuppeteer env path doc cc) initial in
  count is_access evs = 1%nat /\ (count is_launch evs <= 1)%nat
  /\ (count is_page_pdf evs <= 1)%nat /\ count is_import evs = 0%nat
  /\ count is_create evs = 0%nat /\ count is_save evs = 0%nat
  /\ (count is_write evs <= 1)%nat.
Proof.
  unfold_primary. repeat oracle_step; trace_norm; count_goals.
Qed.

Lemma fallback_counts env path doc cc :
  let evs := events (convertWordToPDFAlternative env path doc cc) initial in
  count is_import evs = 1%nat /\ count is_access evs = 0%nat
  /\ count is_launch evs = 0%nat /\ count is_page_pdf evs = 0%nat
  /\ (count is_create evs <= 1)%nat /\ (count is_save evs <= 1)%nat
  /\ (count is_write evs <= 1)%nat.
Proof.
  unfold_fallback.
  do 6 (oracle_step; [|trace_norm; count_goals]).
  rewrite !drawHeader_run. cbn [fst snd].
  destruct (result (drawHeader _ _ _ _ _) initial) as [d1|]; [|trace_norm; count_goals].
  rewrite !drawLines_run. cbn [fst snd].
  destruct (result (drawLines _ _ _ _ _ _ _) initial) as [[[d2 p2] y2]|];
    [|trace_norm; count_goals].
  repeat oracle_step; trace_norm; count_goals.
Qed.

(** C3.  The coordinator runs the primary renderer once (one [fs.access], at
    most one launch and one [page.pdf]); it runs the fallback renderer once
    when the primary renderer threw, whatever it threw, and not at all
    otherwise (one [import('pdf-lib')], at most one document created and
    saved); when the fallback throws [m] as well, the coordinator throws
    ["PDF generation failed completely: " ++ m]. *)
Theorem coordinator_attempts_each_stage_once env path doc cc :
  let evs := events (convertWordToPDF env path doc cc) initial in
  let primary := result (convertWordToPDFWithPuppeteer env path doc cc) initial in
  count is_access evs = 1%nat
  /\ (count is_launch evs <= 1)%nat /\ (count is_page_pdf evs <= 1)%nat
  /\ count is_import evs = (if is_ok primary then 0 else 1)%nat
  /\ (count is_create evs <= 1)%nat /\ (count is_save evs <= 1)%nat
  /\ match primary with
     | Ok p => result (convertWordToPDF env path doc cc) initial = Ok p
     | Err e =>
         In (ConsoleError (switchMessage e)) evs
         /\ match result (alternativeTry env path doc cc) initial with
            | Ok p => result (convertWordToPDF env path doc cc) initial = Ok p
            | Err m =>
                result (convertWordToPDF env path doc cc) initial
                = Err ("PDF generation failed completely: " ++ m)
            end
     end.
Proof.
  cbv zeta.
  destruct (coordinator_events env path doc cc) as [-> ->].
  pose proof (primary_counts env path doc cc) as (P1 & P2 & P3 & P4 & P5 & P6 & _).
  pose proof (fallback_counts env path doc cc) as (F1 & F2 & F3 & F4 & F5 & F6 & _).
  cbv zeta in P1, P2, P3, P4, P5, P6, F1, F2, F3, F4, F5, F6.
  rewrite fallback_result.
  change (ConsoleLog (attemptMessage doc) :: ?l)%list
    with ([ConsoleLog (attemptMessage doc)] ++ l)%list.
  destruct (result (convertWordToPDFWithPuppeteer env path doc cc) initial) as [p|e].
  - rewrite app_nil_r, !count_app. cbn [is_ok].
    change (count _ [ConsoleLog _]) with 0%nat. repeat split; try lia.
  - change (ConsoleError (switchMessage e) :: ?l)%list
      with ([ConsoleError (switchMessage e)] ++ l)%list.
    rewrite !count_app. cbn [is_ok].
    change (count _ [ConsoleLog _]) with 0%nat.
    change (count _ [ConsoleError _]) with 0%nat.
    repeat split; try lia.
    + apply in_or_app. right. apply in_or_app. right. apply in_or_app. left. now left.
    + destruct (result (alternativeTry env path doc cc) initial); reflexivity.
Qed.

(** ** The browser of the primary renderer *)

(** C7.  Whatever the primary renderer does, it launches at most one
    browser, and when the launch succeeded it closes that browser exactly
    once, as the last call before it returns or throws; when no browser was
    acquired nothing is closed.  In a run of the coordinator these calls come
    before anything the coordinator does next. *)
Theorem browser_closed_on_every_exit env path doc cc s :
  let evs := events (convertWordToPDFWithPuppeteer env path doc cc) s in
  trace (snd (convertWordToPDFWithPuppeteer env path doc cc s)) = (trace s ++ evs)%list
  /\ (count is_launch evs <= 1)%nat
  /\ (if existsb is_launch evs && is_ok (puppeteer_launch env)
      then count is_close evs = 1%nat /\ last evs (ConsoleLog "") = BrowserClose
      else count is_close evs = 0%nat)
  /\ exists rest,
       events (convertWordToPDF env path doc cc) initial
       = (ConsoleLog (attemptMessage doc)
          :: events (convertWordToPDFWithPuppeteer env path doc cc) initial ++ rest)%list.
Proof.
  cbv zeta. split; [|split; [|split]].
  - rewrite (tracks_events _ s (primary_tracks env path doc cc)).
    apply (primary_tracks env path doc cc s).
  - rewrite (tracks_events _ s (primary_tracks env path doc cc)).
    apply (primary_counts env path doc cc).
  - unfold_primary.
    repeat oracle_step; trace_norm;
      repeat match goal with H : puppeteer_launch env = _ |- _ => rewrite H end;
      count_goals.
  - eexists. apply (coordinator_events env path doc cc).
Qed.

(** ** Extraction failures *)

Lemma primary_extraction_failure env path doc cc e :
  primaryExtraction env path = Err e ->
  result (convertWordToPDFWithPuppeteer env path doc cc) initial = Err e
  /\ count is_launch (events (convertWordToPDFWithPuppeteer env path doc cc) initial) = 0%nat
  /\ count is_page_pdf (events (convertWordToPDFWithPuppeteer env path doc cc) initial) = 0%nat
  /\ count is_write (events (convertWordToPDFWithPuppeteer env path doc cc) initial) = 0%nat.
Proof.
  unfold primaryExtraction. intros He. unfold_primary.
  destruct (fs_access env path) as [u|m]; cbn [fst snd trace browser];
    [|inversion He; subst; trace_norm; count_goals].
  destruct (fs_readFile env path) as [buf|m]; cbn [fst snd trace browser];
    [|inversion He; subst; trace_norm; count_goals].
  rewrite He. cbn [fst snd trace browser]. trace_norm. count_goals.
Qed.

Lemma fallback_extraction_failure env path doc cc e :
  is_ok (import_pdf_lib env) = true ->
  fallbackExtraction env path = Err e ->
  result (alternativeTry env path doc cc) initial = Err e
  /\ count is_create (events (convertWordToPDFAlternative env path doc cc) initial) = 0%nat
  /\ count is_save (events (convertWordToPDFAlternative env path doc cc) initial) = 0%nat
  /\ count is_write (events (convertWordToPDFAlternative env path doc cc) initial) = 0%nat.
Proof.
  unfold fallbackExtraction. intros Hi Hf. unfold_fallback.
  destruct (import_pdf_lib env); [|discriminate Hi]. cbn [fst snd trace browser].
  destruct (fs_readFile env path) as [buf|m]; cbn [fst snd trace browser].
  - rewrite Hf. cbn [fst snd trace browser]. trace_norm. count_goals.
  - inversion Hf; subst. trace_norm. count_goals.
Qed.

(** C2, as the code has it.  When the extraction of the primary path throws
    [e], no browser is launched and nothing is printed or written by the
    primary path, and the coordinator logs the failure and runs the fallback
    renderer once.  When pdf-lib loads and the extraction of the fallback path
    throws [e'] as well, the pipeline throws
    ["PDF generation failed completely: " ++ e'] and no PDF document has been
    created, saved or written. *)
Theorem extraction_failure_goes_to_fallback env path doc cc e :
  primaryExtraction env path = Err e ->
  let evs := events (convertWordToPDF env path doc cc) initial in
  count is_launch evs = 0%nat /\ count is_page_pdf evs = 0%nat
  /\ In (ConsoleError (switchMessage e)) evs
  /\ count is_import evs = 1%nat
  /\ match import_pdf_lib env, fallbackExtraction env path with
     | Ok _, Err e' =>
         result (convertWordToPDF env path doc cc) initial
         = Err ("PDF generation failed completely: " ++ e')
         /\ count is_create evs = 0%nat /\ count is_save evs = 0%nat
         /\ count is_write evs = 0%nat
     | _, _ => True
     end.
Proof.
  intros He. cbv zeta.
  destruct (primary_extraction_failure env path doc cc e He) as (Hr & L1 & L2 & L3).
  destruct (coordinator_events env path doc cc) as [-> ->].
  pose proof (fallback_counts env path doc cc) as (F1 & F2 & F3 & F4 & _).
  cbv zeta in F1, F2, F3, F4.
  pose proof (primary_counts env path doc cc) as (_ & _ & _ & P4 & P5 & P6 & _).
  cbv zeta in P4, P5, P6.
  rewrite Hr.
  change (ConsoleLog (attemptMessage doc) :: ?l)%list
    with ([ConsoleLog (attemptMessage doc)] ++ l)%list.
  change (ConsoleError (switchMessage e) :: ?l)%list
    with ([ConsoleError (switchMessage e)] ++ l)%list.
  rewrite !count_app.
  change (count _ [ConsoleLog _]) with 0%nat.
  change (count _ [ConsoleError _]) with 0%nat.
  split; [lia|]. split; [lia|].
  split; [apply in_or_app; right; apply in_or_app; right; apply in_or_app; left; now left|].
  split; [lia|].
  destruct (import_pdf_lib env) eqn:Hi; [|exact I].
  destruct (fallbackExtraction env path) as [|e'] eqn:Hf; [exact I|].
  destruct (fallback_extraction_failure env path doc cc e') as (Hr' & C1 & C2 & C3);
    [now rewrite Hi | exact Hf |].
  rewrite fallback_result, Hr'. repeat split; lia.
Qed.

(** A source file that is not a document: the run reaches the fallback
    renderer. *)
Lemma extraction_failure_goes_to_fallback_witness :
  primaryExtraction env_corrupt "in.docx" = Err "Can't find end of central directory"
  /\ count is_import
       (events (convertWordToPDF env_corrupt "in.docx" sampleDocument None) initial) = 1%nat
  /\ result (convertWordToPDF env_corrupt "in.docx" sampleDocument None) initial
     = Err "PDF generation failed completely: Can't find end of central directory".
Proof.
  pose proof (extraction_failure_goes_to_fallback env_corrupt "in.docx" sampleDocument
                None "Can't find end of central directory" eq_refl) as H.
  cbv zeta in H. destruct H as (_ & _ & _ & Hi & H).
  split; [reflexivity|]. split; [exact Hi|].
  change (import_pdf_lib env_corrupt) with (@Ok unit tt) in H.
  change (fallbackExtraction env_corrupt "in.docx")
    with (@Err string "Can't find end of central directory") in H.
  exact (proj1 H).
Defined.

(** C2, as stated, fails: the extraction of the primary path throws, and the
    coordinator still loads pdf-lib, reads the file again and asks mammoth for
    the raw text; the error it throws is the one of the fallback renderer. *)
Lemma corrupt_source_reaches_fallback :
  primaryExtraction env_corrupt "in.docx" = Err "Can't find end of central directory"
  /\ events (convertWordToPDF env_corrupt "in.docx" sampleDocument None) initial
     = [ ConsoleLog "[PDF] Attempting Puppeteer PDF for: QC-SOP-001";
         FsAccess "in.docx"; FsReadFile "in.docx"; MammothConvertToHtml [];
         ConsoleError "[PDF] Puppeteer failed: Can't find end of central directory. Switching to Professional Fallback...";
         ImportPdfLib; FsReadFile "in.docx"; MammothExtractRawText [];
         ConsoleError "[PDF] Fallback engine also failed: Can't find end of central directory" ]
  /\ existsb is_import
       (events (convertWordToPDF env_corrupt "in.docx" sampleDocument None) initial) = true.
Proof. split; [reflexivity|]. split; vm_compute; reflexivity. Qed.

(** ** The name of the artifact *)

Lemma no_slash_string_of_uint (d : Decimal.uint) :
  no_slash (NilEmpty.string_of_uint d) = true.
Proof. induction d; simpl; auto. Qed.

Lemma no_slash_string_of_Z (z : Z) : no_slash (string_of_Z z) = true.
Proof.
  unfold string_of_Z, NilZero.string_of_int, NilZero.string_of_uint.
  destruct (Z.to_int z) as [d|d].
  - destruct d; try reflexivity; apply (no_slash_string_of_uint (_ d)).
  - change (no_slash (String "-" ?s)) with (no_slash s).
    destruct d; try reflexivity; apply (no_slash_string_of_uint (_ d)).
Qed.

Lemma no_slash_template_of_num (a : option Z) : no_slash (template_of_num a) = true.
Proof. destruct a; [apply no_slash_string_of_Z | reflexivity]. Qed.

Lemma long_segment_plain (s : string) :
  no_slash s = true -> (3 <= String.length s)%nat -> plain_segment s = true.
Proof.
  intros Hs Hl. unfold plain_segment. rewrite Hs.
  destruct s as [|a [|b [|c s]]]; simpl in Hl; try lia.
  simpl. destruct (Ascii.eqb a "."), (Ascii.eqb b "."); reflexivity.
Qed.

(** The name of the file is one path segment when the document number holds
    no [/]. *)
Lemma artifact_name_plain (number : string) (rev : option Z) (r : Renderer) (now : Z) :
  no_slash number = true ->
  plain_segment (number ++ "_v" ++ template_of_num rev ++ "_" ++ engineTag r ++ "_"
                 ++ string_of_Z now ++ ".pdf") = true.
Proof.
  intros Hn. apply long_segment_plain.
  - rewrite !no_slash_append, Hn, no_slash_template_of_num, no_slash_string_of_Z.
    destruct r; reflexivity.
  - rewrite !length_append. simpl. lia.
Qed.

Lemma primary_success env path doc cc s p :
  result (convertWordToPDFWithPuppeteer env path doc cc) s = Ok p ->
  p = path_join [pdfsDir env; finalName env doc].
Proof.
  unfold_primary. repeat oracle_step; intros H; inversion H; reflexivity.
Qed.

Lemma render_success r env path doc cc s p :
  result (render r env path doc cc) s = Ok p ->
  p = path_join [pdfsDir env;
                 docNumber doc ++ "_v" ++ template_of_num (revisionNo doc) ++ "_"
                 ++ engineTag r ++ "_" ++ string_of_Z (Date_now env) ++ ".pdf"].
Proof.
  destruct r; cbn [render engineTag]; intros H.
  - apply primary_success in H. exact H.
  - apply fallback_success in H. destruct H as (_ & _ & _ & _ & _ & H). exact H.
Qed.

(** X18.  Where the server runs in an absolute directory, the document
    number holds no [/] and the revision number is set, a successful render
    of either renderer returns the file
    [{docNumber}_v{revisionNo}_{engineTag}_{Date.now()}.pdf] of the directory
    [pdfs]: the tag is [final] for the primary renderer and [fallback] for the
    fallback renderer. *)
Theorem artifact_path_contract r env path doc cc s p rev :
  starts_with_slash (process_cwd env) = true ->
  no_slash (docNumber doc) = true ->
  revisionNo doc = Some rev ->
  result (render r env path doc cc) s = Ok p ->
  p = pdfsDir env ++ "/" ++ docNumber doc ++ "_v" ++ string_of_Z rev
      ++ "_" ++ engineTag r ++ "_" ++ string_of_Z (Date_now env) ++ ".pdf".
Proof.
  intros Habs Hn Hrev H. apply render_success in H. subst p.
  rewrite Hrev. change (template_of_num (Some rev)) with (string_of_Z rev).
  destruct (pdfsDir_shape _ Habs) as (segs & Hne & Hplain & Hdir).
  unfold pdfsDir. rewrite Hdir.
  rewrite path_join_under;
    [reflexivity | exact Hne | exact Hplain
    | exact (artifact_name_plain (docNumber doc) (Some rev) r (Date_now env) Hn)].
Qed.

Lemma artifact_path_contract_witness :
  starts_with_slash (process_cwd env_no_engine) = true
  /\ no_slash (docNumber sampleDocument) = true
  /\ revisionNo sampleDocument = Some 2
  /\ result (render Fallback env_no_engine "in.docx" sampleDocument None) initial
     = Ok "/app/pdfs/QC-SOP-001_v2_fallback_1700000000000.pdf"
  /\ "/app/pdfs/QC-SOP-001_v2_fallback_1700000000000.pdf"
     = pdfsDir env_no_engine ++ "/" ++ docNumber sampleDocument ++ "_v"
       ++ string_of_Z 2 ++ "_" ++ engineTag Fallback
       ++ "_" ++ string_of_Z (Date_now env_no_engine) ++ ".pdf".
Proof.
  split; [reflexivity|]. split; [reflexivity|]. split; [reflexivity|].
  split; [vm_compute; reflexivity|].
  apply (artifact_path_contract Fallback env_no_engine "in.docx" sampleDocument None initial);
    [reflexivity | reflexivity | reflexivity | vm_compute; reflexivity].
Defined.

(** C5.  The name of the file is built from the document number and joined
    to the directory [pdfs] with no check of the number.  The primary render
    of a document whose number is [../QC-SOP-001] succeeds, and the file it
    has written and returns is [/app/QC-SOP-001_v2_final_1700000000000.pdf]:
    it lies beside the directory [/app/pdfs], not under it. *)
Theorem climbing_number_leaves_pdfs_directory :
  pdfsDir env_available = "/app/pdfs"
  /\ docNumber climbingDocument = "../QC-SOP-001"
  /\ result (convertWordToPDFWithPuppeteer env_available "in.docx" climbingDocument None)
       initial
     = Ok "/app/QC-SOP-001_v2_final_1700000000000.pdf"
  /\ In (FsWriteFile "/app/QC-SOP-001_v2_final_1700000000000.pdf" [])
        (events (convertWordToPDFWithPuppeteer env_available "in.docx" climbingDocument
                   None) initial)
  /\ startsWith (pdfsDir env_available ++ "/")
       "/app/QC-SOP-001_v2_final_1700000000000.pdf" = false.
Proof.
  split; [vm_compute; reflexivity|]. split; [reflexivity|].
  split; [vm_compute; reflexivity|].
  split; [|vm_compute; reflexivity].
  vm_compute. do 8 right. now left.
Qed.

(** A revision number that is not set is written [null] in the name of the
    file, where the header of the same render shows [0]. *)
Lemma null_revision_is_named_null :
  revisionNo unrevisedDocument = None
  /\ result (convertWordToPDFWithPuppeteer env_available "in.docx" unrevisedDocument None)
       initial
     = Ok "/app/pdfs/QC-SOP-001_vnull_final_1700000000000.pdf"
  /\ includes "Rev. No:</span> 0</td>" (getHeaderTemplate env_available unrevisedDocument)
     = true.
Proof. split; [reflexivity|]. split; vm_compute; reflexivity. Qed.

(** ** The pages of the fallback renderer *)

Lemma pagesOf_concat (lines : list string) :
  forall done cur,
    List.concat (pagesOf lines done cur) = (List.concat done ++ cur ++ lines)%list.
Proof.
  induction lines as [|l lines IH]; intros done cur; cbn [pagesOf].
  - rewrite concat_app. cbn [List.concat]. now rewrite !app_nil_r.
  - destruct (linesPerPage <=? List.length cur)%nat; rewrite IH.
    + rewrite concat_app. cbn [List.concat]. rewrite app_nil_r, <- app_assoc. reflexivity.
    + rewrite <- app_assoc. reflexivity.
Qed.

(** Every page but the last is full, and only the first page can be empty. *)
Lemma pagesOf_sizes (lines : list string) :
  forall done cur,
    Forall (fun g => List.length g = linesPerPage) done ->
    (List.length cur <= linesPerPage)%nat ->
    (done = [] \/ cur <> []) ->
    exists full last,
      pagesOf lines done cur = (full ++ [last])%list
      /\ Forall (fun g => List.length g = linesPerPage) full
      /\ (List.length last <= linesPerPage)%nat
      /\ (full = [] \/ last <> []).
Proof.
  induction lines as [|l lines IH]; intros done cur Hdone Hcur Hne; cbn [pagesOf].
  - exists done, cur. auto.
  - destruct (Nat.leb_spec linesPerPage (List.length cur)).
    + apply IH.
      * apply Forall_app. split; [exact Hdone|]. constructor; [lia | constructor].
      * unfold linesPerPage. simpl. lia.
      * right. discriminate.
    + apply IH; [exact Hdone | rewrite length_app; simpl; lia |].
      right. now destruct cur.
Qed.

Lemma texts_of_bodyOps (lines : list string) (y : Z) :
  texts_of (bodyOps lines y) = map cleaned lines.
Proof.
  revert y. induction lines as [|l lines IH]; intros y; [reflexivity|].
  cbn [bodyOps map]. unfold texts_of in *. cbn [flat_map app]. now rewrite IH.
Qed.

Lemma bodyTexts_pageOf env doc (lines : list string) :
  bodyTexts (pageOf env doc lines) = map cleaned lines.
Proof.
  unfold bodyTexts, pageOf, headerOps. cbn [app skipn]. apply texts_of_bodyOps.
Qed.

Lemma bodyTexts_pages env doc (groups : list (list string)) :
  List.concat (map bodyTexts (map (pageOf env doc) groups)) = map cleaned (List.concat groups).
Proof.
  induction groups as [|g groups IH]; [reflexivity|].
  cbn [map List.concat]. now rewrite IH, bodyTexts_pageOf, map_app.
Qed.

Lemma length_substring0_min (n : nat) (s : string) :
  String.length (substring0 n s) = Nat.min n (String.length s).
Proof.
  unfold substring0. revert s. induction n as [|n IH]; intros [|c s]; simpl; auto.
Qed.

Lemma length_cleaned (line : string) :
  String.length (cleaned line) = Nat.min 95 (String.length line).
Proof. unfold cleaned. now rewrite length_replace_non_printable, length_substring0_min. Qed.

Lemma cleaned_printable (line : string) :
  string_forallb is_printable_ascii (cleaned line) = true.
Proof. apply replace_non_printable_printable. Qed.

Lemma fallbackExtraction_ok env path buf content :
  fs_readFile env path = Ok buf -> mammoth_extractRawText env buf = Ok content ->
  fallbackExtraction env path = Ok content.
Proof. unfold fallbackExtraction. now intros -> ->. Qed.

(** C9.  In a fallback render that succeeds, the saved document is the
    drawn lines in pages: every page is the header block (its first drawing
    is the name and number banner) followed by its lines, 15 points apart
    from 170 points below the top; a line goes to a new page exactly when the
    next position on the current page is below 150 points, that is when the
    page holds 35 lines already; so every page but the last holds 35 lines
    and a page is started only for a line. *)
Theorem fallback_pages_begin_with_header env path doc cc s p :
  result (convertWordToPDFAlternative env path doc cc) s = Ok p ->
  exists content full last,
    fallbackExtraction env path = Ok content
    /\ savedDocument (events (convertWordToPDFAlternative env path doc cc) s)
       = Some (map (pageOf env doc) (full ++ [last]))
    /\ List.concat (full ++ [last]) = contentLines content
    /\ Forall (fun g => List.length g = linesPerPage) full
    /\ (List.length last <= linesPerPage)%nat
    /\ (full = [] \/ last <> [])
    /\ (forall g,
          pageOf env doc g
          = (headerOps env doc (toUpperCase env (str_or (headerInfo doc) ""))
             ++ bodyOps g firstLineY)%list
          /\ hd_error (pageOf env doc g)
             = Some (DrawText ("Document Name: " ++ substring0 60 (docName doc)
                               ++ " | Document Number: " ++ substring0 30 (docNumber doc))
                       (pt 45) (pageHeight - pt 30) 9 HelveticaBold))
    /\ (forall n, (firstLineY - pt 15 * Z.of_nat n <? pt 150)%Z
                  = (linesPerPage <=? n)%nat).
Proof.
  intros H. apply fallback_success in H.
  destruct H as (buf & content & Hread & Htext & Hsaved & _).
  destruct (pagesOf_sizes (contentLines content) [] []) as (full & last & Hp & Hf & Hl & Hn);
    [constructor | simpl; lia | now left |].
  exists content, full, last.
  split; [now apply (fallbackExtraction_ok env path buf)|].
  split; [rewrite Hsaved; unfold fallbackDocument; now rewrite Hp|].
  split; [rewrite <- Hp, pagesOf_concat; reflexivity|].
  repeat split; auto. apply threshold_in_lines.
Qed.

Lemma fallback_pages_begin_with_header_witness :
  result (convertWordToPDFAlternative env_two_pages "in.docx" sampleDocument None) initial
  = Ok "/app/pdfs/QC-SOP-001_v2_fallback_1700000000000.pdf"
  /\ exists full last,
       savedDocument
         (events (convertWordToPDFAlternative env_two_pages "in.docx" sampleDocument None)
            initial)
       = Some (map (pageOf env_two_pages sampleDocument) (full ++ [last]))
       /\ Forall (fun g => List.length g = linesPerPage) full
       /\ (List.length last <= linesPerPage)%nat.
Proof.
  assert (H : result (convertWordToPDFAlternative env_two_pages "in.docx" sampleDocument
                        None) initial
              = Ok "/app/pdfs/QC-SOP-001_v2_fallback_1700000000000.pdf")
    by (vm_compute; reflexivity).
  split; [exact H|].
  destruct (fallback_pages_begin_with_header _ _ _ _ _ _ H)
    as (content & full & last & _ & Hs & _ & Hf & Hl & _).
  exists full, last. auto.
Defined.

(** C10.  In a fallback render that succeeds, the sixth drawing of every
    page, the last of its header block, is the text ["Page: 1 of 1"],
    however many pages the document has. *)
Theorem fallback_page_indicator_is_constant env path doc cc s p :
  result (convertWordToPDFAlternative env path doc cc) s = Ok p ->
  exists d,
    savedDocument (events (convertWordToPDFAlternative env path doc cc) s) = Some d
    /\ Forall (fun pg => nth_error pg 5
                         = Some (DrawText "Page: 1 of 1" (pt 45) (pageHeight - pt 115) 9
                                   Helvetica)) d.
Proof.
  intros H. apply fallback_success in H.
  destruct H as (buf & content & _ & _ & Hsaved & _).
  exists (fallbackDocument env doc content). split; [exact Hsaved|].
  unfold fallbackDocument. apply Forall_map, Forall_forall. intros g _. reflexivity.
Qed.

Lemma fallback_page_indicator_is_constant_witness :
  result (convertWordToPDFAlternative env_two_pages "in.docx" sampleDocument None) initial
  = Ok "/app/pdfs/QC-SOP-001_v2_fallback_1700000000000.pdf"
  /\ option_map (@List.length Page)
       (savedDocument
          (events (convertWordToPDFAlternative env_two_pages "in.docx" sampleDocument None)
             initial)) = Some 2%nat
  /\ exists d,
       savedDocument
         (events (convertWordToPDFAlternative env_two_pages "in.docx" sampleDocument None)
            initial) = Some d
       /\ Forall (fun pg => nth_error pg 5
                            = Some (DrawText "Page: 1 of 1" (pt 45) (pageHeight - pt 115) 9
                                      Helvetica)) d.
Proof.
  assert (H : result (convertWordToPDFAlternative env_two_pages "in.docx" sampleDocument
                        None) initial
              = Ok "/app/pdfs/QC-SOP-001_v2_fallback_1700000000000.pdf")
    by (vm_compute; reflexivity).
  split; [exact H|]. split; [vm_compute; reflexivity|].
  exact (fallback_page_indicator_is_constant _ _ _ _ _ _ H).
Defined.

(** C8, as the code has it.  In a fallback render that succeeds, the body
    texts drawn are, in order, the non-blank lines of the extracted text, each
    cut to its first 95 characters (what follows them is not drawn) with
    every character outside the printable ASCII range replaced by a space. *)
Theorem fallback_lines_cut_and_cleaned env path doc cc s p :
  result (convertWordToPDFAlternative env path doc cc) s = Ok p ->
  exists content d,
    fallbackExtraction env path = Ok content
    /\ savedDocument (events (convertWordToPDFAlternative env path doc cc) s) = Some d
    /\ List.concat (map bodyTexts d)
       = map (fun line => replace_non_printable (substring0 95 line)) (contentLines content)
    /\ Forall (fun t => (String.length t <= 95)%nat
                        /\ string_forallb is_printable_ascii t = true)
         (List.concat (map bodyTexts d))
    /\ forall line,
         String.length (replace_non_printable (substring0 95 line))
         = Nat.min 95 (String.length line).
Proof.
  intros H. apply fallback_success in H.
  destruct H as (buf & content & Hread & Htext & Hsaved & _).
  exists content, (fallbackDocument env doc content).
  split; [now apply (fallbackExtraction_ok env path buf)|].
  split; [exact Hsaved|].
  assert (E : List.concat (map bodyTexts (fallbackDocument env doc content))
              = map cleaned (contentLines content)).
  { unfold fallbackDocument. rewrite bodyTexts_pages, pagesOf_concat. reflexivity. }
  split; [exact E|]. split; [|exact length_cleaned].
  rewrite E. apply Forall_map, Forall_forall. intros line _.
  split; [rewrite length_cleaned; apply Nat.le_min_l | apply cleaned_printable].
Qed.

Lemma fallback_lines_cut_and_cleaned_witness :
  result (convertWordToPDFAlternative env_long_line "in.docx" sampleDocument None) initial
  = Ok "/app/pdfs/QC-SOP-001_v2_fallback_1700000000000.pdf"
  /\ exists content d,
       fallbackExtraction env_long_line "in.docx" = Ok content
       /\ savedDocument
            (events (convertWordToPDFAlternative env_long_line "in.docx" sampleDocument
                       None) initial) = Some d
       /\ List.concat (map bodyTexts d)
          = map (fun line => replace_non_printable (substring0 95 line))
              (contentLines content).
Proof.
  assert (H : result (convertWordToPDFAlternative env_long_line "in.docx" sampleDocument
                        None) initial
              = Ok "/app/pdfs/QC-SOP-001_v2_fallback_1700000000000.pdf")
    by (vm_compute; reflexivity).
  split; [exact H|].
  destruct (fallback_lines_cut_and_cleaned _ _ _ _ _ _ H)
    as (content & d & He & Hs & Hb & _).
  exists content, d. auto.
Defined.

(** C8, as stated, fails: a paragraph of 100 characters is drawn as one text
    of 95 characters, and its last five characters are drawn nowhere. *)
Lemma long_line_is_cut_not_wrapped :
  fallbackExtraction env_long_line "in.docx" = Ok longLine
  /\ String.length longLine = 100%nat
  /\ option_map (fun d => List.concat (map bodyTexts d))
       (savedDocument
          (events (convertWordToPDF env_long_line "in.docx" sampleDocument None) initial))
     = Some [substring0 95 longLine]
  /\ String.concat "" [substring0 95 longLine] <> longLine.
Proof.
  split; [reflexivity|]. split; [reflexivity|]. split; [vm_compute; reflexivity|].
  vm_compute. discriminate.
Qed.

(** ** The header and the footer of the two paths *)

(** A successful primary render printed with the header and footer templates
    of the document, on every page. *)
Lemma primary_prints_with_templates env path doc cc s p :
  result (convertWordToPDFWithPuppeteer env path doc cc) s = Ok p ->
  printOptions (events (convertWordToPDFWithPuppeteer env path doc cc) s)
  = Some (pdfOptions (getHeaderTemplate env doc) (getFooterTemplate env doc cc)).
Proof.
  unfold_primary. repeat oracle_step; intros H; try discriminate H; trace_norm; reflexivity.
Qed.

(** With [controlCopyInfo], the footer the primary path prints with carries
    the stamp and the name of the recipient. *)
Lemma primary_footer_carries_stamp env (h : string) doc info :
  displayHeaderFooter (pdfOptions h (getFooterTemplate env doc (Some info))) = true
  /\ includes "CONTROLLED COPY"
       (footerTemplate (pdfOptions h (getFooterTemplate env doc (Some info)))) = true
  /\ includes (userFullName info)
       (footerTemplate (pdfOptions h (getFooterTemplate env doc (Some info)))) = true.
Proof.
  split; [reflexivity|].
  unfold pdfOptions, footerTemplate, pdfFooterTemplate, getFooterTemplate,
    controlCopyBanner; cbv zeta.
  split; find_infix.
Qed.

(** Without it, the banner under the footer table is empty. *)
Lemma primary_footer_without_stamp :
  controlCopyBanner None = ""
  /\ includes "CONTROLLED COPY"
       (footerTemplate (pdfOptions (getHeaderTemplate env_available sampleDocument)
                          (getFooterTemplate env_available sampleDocument None))) = false.
Proof. split; [reflexivity | vm_compute; reflexivity]. Qed.

(** C1: the fallback renderer never reads [controlCopyInfo].  With the stamp
    of J. Smith asked for and the engine failing on launch, the coordinator
    returns the fallback file, and no text drawn on any of its pages includes
    ["CONTROLLED COPY"] or ["J. Smith"]. *)
Theorem fallback_draws_no_controlled_copy_stamp :
  (forall env path doc info,
      convertWordToPDFAlternative env path doc (Some info)
      = convertWordToPDFAlternative env path doc None)
  /\ result (convertWordToPDF env_no_engine "in.docx" sampleDocument
               (Some sampleControlCopy)) initial
     = Ok "/app/pdfs/QC-SOP-001_v2_fallback_1700000000000.pdf"
  /\ exists d,
       savedDocument
         (events (convertWordToPDF env_no_engine "in.docx" sampleDocument
                    (Some sampleControlCopy)) initial) = Some d
       /\ forallb (fun pg =>
                     forallb (fun t => negb (includes "CONTROLLED COPY" t)
                                       && negb (includes "J. Smith" t))
                       (texts_of pg)) d = true.
Proof.
  split; [reflexivity|]. split; [vm_compute; reflexivity|].
  eexists. split; vm_compute; reflexivity.
Qed.

(** *** Dates *)

Lemma in_range (lo : Z) (len : nat) (n : Z) :
  lo <= n < lo + Z.of_nat len -> In n (map (fun k => lo + Z.of_nat k) (seq 0 len)).
Proof.
  intros H. apply in_map_iff. exists (Z.to_nat (n - lo)).
  split; [lia|]. apply in_seq. lia.
Qed.

Lemma pad2_two_digits (n : Z) : 0 <= n <= 99 -> two_digits (pad2 n) = true.
Proof.
  intros H.
  assert (A : forallb (fun k => two_digits (pad2 k))
                (map (fun k => 0 + Z.of_nat k) (seq 0 100)) = true)
    by (vm_compute; reflexivity).
  rewrite forallb_forall in A. apply A, in_range. lia.
Qed.

Lemma year_four_digits (n : Z) : 1000 <= n <= 9999 -> four_digits (string_of_Z n) = true.
Proof.
  intros H.
  assert (A : forallb (fun k => four_digits (string_of_Z k))
                (map (fun k => 1000 + Z.of_nat k) (seq 0 (Z.to_nat 9000))) = true)
    by (vm_compute; reflexivity).
  rewrite forallb_forall in A. apply A, in_range. lia.
Qed.

(** In the locale [en-GB] a date is rendered as [DD/MM/YYYY]. *)
Lemma en_GB_date_shape (l : Locale) (d : DateVal) :
  valid_date d -> is_DDMMYYYY (toLocaleDateString l (Some en_GB) d) = true.
Proof.
  intros (Hd & Hm & Hy). unfold toLocaleDateString.
  pose proof (pad2_two_digits (day d) ltac:(lia)) as D.
  pose proof (pad2_two_digits (month d) ltac:(lia)) as Mo.
  pose proof (year_four_digits (year d) Hy) as Y.
  destruct (pad2 (day d)) as [|d1 [|d2 [|]]]; try discriminate D.
  destruct (pad2 (month d)) as [|m1 [|m2 [|]]]; try discriminate Mo.
  destruct (string_of_Z (year d)) as [|y1 [|y2 [|y3 [|y4 [|]]]]]; try discriminate Y.
  cbv [append is_DDMMYYYY]. unfold two_digits in D, Mo. unfold four_digits in Y.
  apply andb_true_iff in D, Mo. destruct D as [-> ->]. destruct Mo as [-> ->].
  rewrite !andb_true_iff in Y. destruct Y as [[[-> ->] ->] ->]. reflexivity.
Qed.

(** The dates of the primary header: [DD/MM/YYYY] for a date that is set,
    today for an issue date that is not, ["N/A"] for a due date that is
    not. *)
Lemma primary_header_dates env doc :
  match dateOfIssue doc with
  | Some d =>
      includes ("Date of Issue:</span> " ++ toLocaleDateString (defaultLocale env) (Some en_GB) d
                ++ "</td>") (getHeaderTemplate env doc) = true
  | None =>
      includes ("Date of Issue:</span> "
                ++ toLocaleDateString (defaultLocale env) (Some en_GB) (today env)
                ++ "</td>") (getHeaderTemplate env doc) = true
  end
  /\ match reviewDueDate doc with
     | Some d =>
         includes ("Due Date of Rev. :</span> "
                   ++ toLocaleDateString (defaultLocale env) (Some en_GB) d ++ "</div>")
           (getHeaderTemplate env doc) = true
     | None =>
         includes ("Due Date of Rev. :</span> " ++ "N/A" ++ "</div>")
           (getHeaderTemplate env doc) = true
     end.
Proof.
  unfold getHeaderTemplate; cbv zeta.
  split; [destruct (dateOfIssue doc) | destruct (reviewDueDate doc)]; find_infix.
Qed.

(** The date line of the fallback header follows the locale the runtime was
    started with; with [en-GB] it agrees with the primary path. *)
Lemma fallback_header_dates env doc ch :
  nth_error (texts_of (headerOps env doc ch)) 3
  = Some ("Date of Issue: "
          ++ toLocaleDateString (defaultLocale env) (Some (defaultLocale env))
               match dateOfIssue doc with Some d => d | None => today env end
          ++ " | Due Date: "
          ++ match reviewDueDate doc with
             | Some d => toLocaleDateString (defaultLocale env) (Some (defaultLocale env)) d
             | None => "N/A"
             end).
Proof.
  unfold headerOps, texts_of. cbn [flat_map app nth_error].
  destruct (dateOfIssue doc), (reviewDueDate doc); reflexivity.
Qed.

(** C6: the fallback renderer calls [toLocaleDateString()] without the
    locale the primary path passes.  On a runtime started with [en-US], the
    issue date 5 March 2024 is drawn on every page as [3/5/2024], which is
    not [DD/MM/YYYY], while the primary header holds [05/03/2024]; the due
    date that is not set is ["N/A"] in both. *)
Theorem fallback_date_follows_runtime_locale :
  defaultLocale env_no_engine = en_US
  /\ dateOfIssue sampleDocument = Some {| year := 2024; month := 3; day := 5 |}
  /\ reviewDueDate sampleDocument = None
  /\ (exists d,
        savedDocument
          (events (convertWordToPDF env_no_engine "in.docx" sampleDocument None) initial)
        = Some d
        /\ Forall (fun pg => nth_error (texts_of pg) 3
                             = Some "Date of Issue: 3/5/2024 | Due Date: N/A") d)
  /\ is_DDMMYYYY "3/5/2024" = false
  /\ includes "Date of Issue:</span> 05/03/2024</td>"
       (getHeaderTemplate env_no_engine sampleDocument) = true
  /\ includes "Due Date of Rev. :</span> N/A</div>"
       (getHeaderTemplate env_no_engine sampleDocument) = true.
Proof.
  split; [reflexivity|]. split; [reflexivity|]. split; [reflexivity|].
  split; [eexists; split; [vm_compute; reflexivity | repeat constructor]|].
  repeat split; vm_compute; reflexivity.
Qed.

(** C4, as the code has it.  For every document, both paths show the issue
    number (default ["01"]) and the revision number (default [0]) with the
    same values.  The primary header shows the name and the number of the
    document in full; the banner of the fallback renderer shows the first 60
    characters of the name and the first 30 of the number, which are the name
    and the number themselves where they are no longer than that.  The header
    block of every page of a fallback render holds five texts and no more:
    the name and number banner, [document.headerInfo] in upper case cut at
    70 characters, the issue and revision line, the date line and
    ["Page: 1 of 1"]. *)
Theorem header_fields_shared_by_both_paths env path doc cc s p :
  result (convertWordToPDFAlternative env path doc cc) s = Ok p ->
  let issue := str_or (issueNo doc) "01" in
  let revision := string_of_Z (num_or_zero (revisionNo doc)) in
  includes ("Issue No:</span> " ++ issue ++ "</td>") (getHeaderTemplate env doc) = true
  /\ includes ("Rev. No:</span> " ++ revision ++ "</td>") (getHeaderTemplate env doc) = true
  /\ includes ("Title :</span> " ++ docName doc ++ "</td>") (getHeaderTemplate env doc) = true
  /\ includes ("Doc. No:</span> " ++ docNumber doc ++ "</td>") (getHeaderTemplate env doc)
     = true
  /\ ((String.length (docName doc) <= 60)%nat -> substring0 60 (docName doc) = docName doc)
  /\ ((String.length (docNumber doc) <= 30)%nat
      -> substring0 30 (docNumber doc) = docNumber doc)
  /\ exists d dateLine,
       savedDocument (events (convertWordToPDFAlternative env path doc cc) s) = Some d
       /\ Forall (fun pg =>
                    texts_of (firstn 6 pg)
                    = [ "Document Name: " ++ substring0 60 (docName doc)
                        ++ " | Document Number: " ++ substring0 30 (docNumber doc);
                        substring0 70 (toUpperCase env (str_or (headerInfo doc) ""));
                        "Issue No: " ++ issue ++ " | Revision No: " ++ revision;
                        dateLine;
                        "Page: 1 of 1" ]) d.
Proof.
  intros H. cbv zeta.
  split; [unfold getHeaderTemplate; cbv zeta; find_infix|].
  split; [unfold getHeaderTemplate; cbv zeta; find_infix|].
  split; [unfold getHeaderTemplate; cbv zeta; find_infix|].
  split; [unfold getHeaderTemplate; cbv zeta; find_infix|].
  split; [apply substring0_short|]. split; [apply substring0_short|].
  apply fallback_success in H. destruct H as (buf & content & _ & _ & Hsaved & _).
  exists (fallbackDocument env doc content).
  eexists. split; [exact Hsaved|].
  unfold fallbackDocument. apply Forall_map, Forall_forall. intros g _.
  unfold pageOf, headerOps, texts_of. cbn [app firstn flat_map]. reflexivity.
Qed.

Lemma header_fields_shared_by_both_paths_witness :
  result (convertWordToPDFAlternative env_no_engine "in.docx" sampleDocument None) initial
  = Ok "/app/pdfs/QC-SOP-001_v2_fallback_1700000000000.pdf"
  /\ includes ("Issue No:</span> " ++ str_or (issueNo sampleDocument) "01" ++ "</td>")
       (getHeaderTemplate env_no_engine sampleDocument) = true
  /\ substring0 60 (docName sampleDocument) = "Quality Manual".
Proof.
  assert (H : result (convertWordToPDFAlternative env_no_engine "in.docx" sampleDocument
                        None) initial
              = Ok "/app/pdfs/QC-SOP-001_v2_fallback_1700000000000.pdf")
    by (vm_compute; reflexivity).
  split; [exact H|].
  pose proof (header_fields_shared_by_both_paths _ _ _ _ _ _ H) as T. cbv zeta in T.
  destruct T as (Hissue & _ & _ & _ & Hname & _).
  split; [exact Hissue|].
  apply Hname. simpl. lia.
Defined.

(** C4, as stated, fails, also where both paths format dates alike (runtime
    started with [en-GB]): the primary path prints the company name, the
    department, the status and the preparer, and no text drawn by the
    fallback renderer includes any of them. *)
Lemma fallback_header_lacks_primary_fields :
  includes "NEELIKON FOOD DYES AND CHEMICALS LIMITED"
    (getHeaderTemplate env_no_engine_GB sampleDocument) = true
  /\ includes "Dept. :</span> Quality Control</td>"
       (getHeaderTemplate env_no_engine_GB sampleDocument) = true
  /\ includes "APPROVED" (getFooterTemplate env_no_engine_GB sampleDocument None) = true
  /\ includes ">A. Writer</span>" (getFooterTemplate env_no_engine_GB sampleDocument None)
     = true
  /\ exists d,
       savedDocument
         (events (convertWordToPDF env_no_engine_GB "in.docx" sampleDocument None) initial)
       = Some d
       /\ forallb (fun pg =>
                     forallb (fun t => negb (includes "NEELIKON" t)
                                       && negb (includes "Quality Control" t)
                                       && negb (includes "APPROVED" t)
                                       && negb (includes "A. Writer" t))
                       (texts_of pg)) d = true.
Proof.
  repeat (split; [vm_compute; reflexivity|]).
  eexists. split; vm_compute; reflexivity.
Qed.

(** ** The fallback renderer succeeds where its calls do *)

Lemma drawHeader_drawable env doc ch d p :
  forallb (drawable env) (texts_of (headerOps env doc ch)) = true ->
  result (drawHeader env doc ch d p) initial = Ok (drawAll d p (headerOps env doc ch)).
Proof.
  unfold headerOps, texts_of, drawable. cbn [flat_map app forallb].
  rewrite !andb_true_iff. intros (H1 & H2 & H3 & H4 & H5 & _).
  unfold result, drawHeader, drawRectangle, bind. cbv zeta. rewrite !drawText_run.
  repeat match goal with
         | E : is_ok (page_drawText env ?t) = true
           |- context [page_drawText env ?t] =>
             destruct (page_drawText env t); [clear E | discriminate E];
             cbn [fst snd]; rewrite ?drawText_run
         end.
  reflexivity.
Qed.

Lemma drawLines_drawable env doc ch lines :
  forallb (drawable env) (texts_of (headerOps env doc ch)) = true ->
  forallb (drawable env) (map cleaned lines) = true ->
  forall d p y, is_ok (result (drawLines env doc ch lines d p y) initial) = true.
Proof.
  intros Hh. induction lines as [|l lines IH]; intros Hl d p y; [reflexivity|].
  cbn [map forallb] in Hl. apply andb_true_iff in Hl. destruct Hl as [Hl Hrest].
  unfold drawable, cleaned in Hl.
  unfold result. cbn [drawLines]. unfold bind, ret, addPage.
  destruct (y <? pt 150)%Z.
  - rewrite drawHeader_run, (drawHeader_drawable _ _ _ _ _ Hh). cbn [fst snd].
    rewrite drawText_run. destruct (page_drawText env _); [|discriminate Hl].
    cbn [fst snd]. apply IH, Hrest.
  - rewrite drawText_run. destruct (page_drawText env _); [|discriminate Hl].
    cbn [fst snd]. apply IH, Hrest.
Qed.

(** The fallback renderer returns its file when each call it makes succeeds:
    on the texts it draws, on the document it lays out and on the file it
    writes. *)
Lemma fallback_returns env path doc cc s content pdfBytes :
  is_ok (import_pdf_lib env) = true ->
  fallbackExtraction env path = Ok content ->
  is_ok (PDFDocument_create env) = true ->
  is_ok (pdfDoc_embedFont env Helvetica) = true ->
  is_ok (pdfDoc_embedFont env HelveticaBold) = true ->
  forallb (drawable env)
    (texts_of (headerOps env doc (toUpperCase env (str_or (headerInfo doc) "")))) = true ->
  forallb (drawable env) (map cleaned (contentLines content)) = true ->
  pdfDoc_save env (fallbackDocument env doc content) = Ok pdfBytes ->
  is_ok (fs_writeFile env (path_join [pdfsDir env; fallbackName env doc]) pdfBytes) = true ->
  result (convertWordToPDFAlternative env path doc cc) s
  = Ok (path_join [pdfsDir env; fallbackName env doc]).
Proof.
  unfold fallbackExtraction. intros Hi He Hc F1 F2 Hh Hl Hs Hw.
  rewrite (proj1 (fallback_tracks env path doc cc s)).
  unfold_fallback.
  destruct (import_pdf_lib env); [|discriminate Hi]. cbn [fst snd trace browser].
  destruct (fs_readFile env path) as [buf|]; [|discriminate He].
  cbn [fst snd trace browser]. rewrite He. cbn [fst snd trace browser].
  destruct (PDFDocument_create env); [|discriminate Hc]. cbn [fst snd trace browser].
  destruct (pdfDoc_embedFont env Helvetica); [|discriminate F1].
  cbn [fst snd trace browser].
  destruct (pdfDoc_embedFont env HelveticaBold); [|discriminate F2].
  cbn [fst snd trace browser].
  rewrite drawHeader_run, (drawHeader_drawable _ _ _ _ _ Hh). cbn [fst snd].
  rewrite (drawAll_last [] []). cbn [app]. rewrite <- pageOf_nil.
  rewrite drawLines_run. cbn [fst snd].
  match goal with
  | |- context [result (drawLines ?e ?dc ?c ?ls ?d0 ?p0 ?y0) initial] =>
      pose proof (drawLines_drawable e dc c ls Hh Hl d0 p0 y0) as L;
      destruct (result (drawLines e dc c ls d0 p0 y0) initial) as [[[d2 p2] y2]|] eqn:Hr;
      [|discriminate L]
  end.
  change [pageOf env doc []]
    with (map (pageOf env doc) [] ++ [pageOf env doc []])%list in Hr.
  change (pageHeight - pt 170)
    with (firstLineY - pt 15 * Z.of_nat (@List.length string [])) in Hr.
  apply (drawLines_pages env doc _ [] []) in Hr. cbn [fst snd] in Hr. subst d2.
  cbn [fst snd trace browser].
  unfold fallbackDocument, contentLines in Hs. rewrite Hs. cbn [fst snd trace browser].
  unfold fallbackName in Hw.
  destruct (fs_writeFile env _ pdfBytes); [|discriminate Hw].
  reflexivity.
Qed.

(** * Further properties of the service *)

(** ** What a successful render has done *)

(** X1.  A primary render that succeeds has made exactly these calls, in
    this order: it checked and read the source file, converted it, launched
    one browser, set the themed page, printed it with the header and footer
    templates of the document shown on every page, wrote the printed bytes to
    the file it returns, and closed the browser. *)
Theorem primary_success_trace env path doc cc s p :
  result (convertWordToPDFWithPuppeteer env path doc cc) s = Ok p ->
  exists wordBuffer html pdfBuffer,
    fs_readFile env path = Ok wordBuffer
    /\ mammoth_convertToHtml env wordBuffer = Ok html
    /\ page_pdf env (pdfOptions (getHeaderTemplate env doc) (getFooterTemplate env doc cc))
       = Ok pdfBuffer
    /\ displayHeaderFooter (pdfOptions (getHeaderTemplate env doc)
                              (getFooterTemplate env doc cc)) = true
    /\ events (convertWordToPDFWithPuppeteer env path doc cc) s
       = [ FsAccess path; FsReadFile path; MammothConvertToHtml wordBuffer;
           PuppeteerLaunch; BrowserNewPage;
           PageSetContent (wrapWithHeavyDutyTheme env doc html cc); PageEvaluate;
           PagePdf (pdfOptions (getHeaderTemplate env doc) (getFooterTemplate env doc cc));
           FsWriteFile p pdfBuffer; BrowserClose ].
Proof.
  unfold_primary.
  repeat (oracle_step; [|try discriminate]); try discriminate.
  intros H; injection H as <-.
  do 3 eexists. repeat (split; [first [reflexivity | eassumption]|]).
  trace_norm. reflexivity.
Qed.

Lemma primary_success_trace_witness :
  result (convertWordToPDFWithPuppeteer env_available "in.docx" sampleDocument None) initial
  = Ok "/app/pdfs/QC-SOP-001_v2_final_1700000000000.pdf"
  /\ count is_write
       (events (convertWordToPDFWithPuppeteer env_available "in.docx" sampleDocument None)
          initial) = 1%nat.
Proof.
  assert (H : result (convertWordToPDFWithPuppeteer env_available "in.docx" sampleDocument
                        None) initial
              = Ok "/app/pdfs/QC-SOP-001_v2_final_1700000000000.pdf")
    by (vm_compute; reflexivity).
  split; [exact H|].
  destruct (primary_success_trace _ _ _ _ _ _ H) as (b & h & f & _ & _ & _ & _ & ->).
  reflexivity.
Defined.

(** X2.  The [finally] block can undo a success: when every call of the
    [try] block succeeded, so that the final file is written, and
    [browser.close()] throws [e], the primary renderer throws [e]; the
    coordinator then logs that failure and its outcome is the outcome of the
    fallback renderer. *)
Theorem close_failure_discards_primary_success env path doc cc p e :
  result (puppeteerTry env path doc cc) initial = Ok p ->
  browser_close env = Err e ->
  result (convertWordToPDFWithPuppeteer env path doc cc) initial = Err e
  /\ count is_write (events (convertWordToPDFWithPuppeteer env path doc cc) initial)
     = 1%nat
  /\ last (events (convertWordToPDFWithPuppeteer env path doc cc) initial) (ConsoleLog "")
     = BrowserClose
  /\ In (ConsoleError (switchMessage e)) (events (convertWordToPDF env path doc cc) initial)
  /\ result (convertWordToPDF env path doc cc) initial
     = result (convertWordToPDFAlternative env path doc cc) initial.
Proof.
  intros Htry Hclose.
  assert (A : result (convertWordToPDFWithPuppeteer env path doc cc) initial = Err e
              /\ count is_write
                   (events (convertWordToPDFWithPuppeteer env path doc cc) initial) = 1%nat
              /\ last (events (convertWordToPDFWithPuppeteer env path doc cc) initial)
                   (ConsoleLog "") = BrowserClose).
  { revert Htry. unfold puppeteerTry. unfold_primary. rewrite Hclose.
    repeat (oracle_step; [|try discriminate]); try discriminate.
    intros _. trace_norm. count_goals. }
  destruct A as (Hr & Hw & Hl). split; [exact Hr|]. split; [exact Hw|]. split; [exact Hl|].
  destruct (coordinator_events env path doc cc) as [-> ->]. rewrite Hr.
  split; [|reflexivity].
  right. apply in_or_app. right. now left.
Qed.

Lemma close_failure_discards_primary_success_witness :
  result (puppeteerTry env_close_fails "in.docx" sampleDocument None) initial
  = Ok "/app/pdfs/QC-SOP-001_v2_final_1700000000000.pdf"
  /\ browser_close env_close_fails = Err "Protocol error: Target closed"
  /\ result (convertWordToPDFWithPuppeteer env_close_fails "in.docx" sampleDocument None)
       initial = Err "Protocol error: Target closed".
Proof.
  assert (H : result (puppeteerTry env_close_fails "in.docx" sampleDocument None) initial
              = Ok "/app/pdfs/QC-SOP-001_v2_final_1700000000000.pdf")
    by (vm_compute; reflexivity).
  split; [exact H|]. split; [reflexivity|].
  exact (proj1 (close_failure_discards_primary_success _ _ _ _ _ _ H eq_refl)).
Defined.

(** X3.  A fallback render that succeeds has made exactly these calls, in
    this order: it loaded pdf-lib, read the source file, extracted its raw
    text, created one document, embedded the two fonts, saved the laid-out
    document and wrote the saved bytes to the file it returns. *)
Theorem fallback_success_trace env path doc cc s p :
  result (convertWordToPDFAlternative env path doc cc) s = Ok p ->
  exists wordBuffer content pdfBytes,
    fs_readFile env path = Ok wordBuffer
    /\ mammoth_extractRawText env wordBuffer = Ok content
    /\ pdfDoc_save env (fallbackDocument env doc content) = Ok pdfBytes
    /\ events (convertWordToPDFAlternative env path doc cc) s
       = [ ImportPdfLib; FsReadFile path; MammothExtractRawText wordBuffer;
           PDFDocumentCreate; EmbedFont Helvetica; EmbedFont HelveticaBold;
           PdfDocSave (fallbackDocument env doc content);
           FsWriteFile p pdfBytes ].
Proof.
  unfold_fallback.
  do 6 (oracle_step; [|discriminate]).
  rewrite drawHeader_run. cbn [fst snd].
  destruct (result (drawHeader _ _ _ _ _) initial) as [d1|] eqn:Hh; [|discriminate].
  apply drawHeader_ok in Hh.
  rewrite (drawAll_last [] []) in Hh. cbn [app] in Hh. rewrite <- pageOf_nil in Hh.
  subst d1. rewrite drawLines_run. cbn [fst snd].
  destruct (result (drawLines _ _ _ _ _ _ _) initial) as [[[d2 p2] y2]|] eqn:Hl;
    [|discriminate].
  change [pageOf env doc []]
    with (map (pageOf env doc) [] ++ [pageOf env doc []])%list in Hl.
  change (pageHeight - pt 170)
    with (firstLineY - pt 15 * Z.of_nat (@List.length string [])) in Hl.
  apply (drawLines_pages env doc _ [] []) in Hl. cbn [fst snd] in Hl. subst d2.
  do 2 (oracle_step; [|discriminate]).
  intros H. injection H as <-.
  do 3 eexists. repeat (split; [first [reflexivity | eassumption]|]).
  trace_norm. reflexivity.
Qed.

Lemma fallback_success_trace_witness :
  result (convertWordToPDFAlternative env_no_engine "in.docx" sampleDocument None) initial
  = Ok "/app/pdfs/QC-SOP-001_v2_fallback_1700000000000.pdf"
  /\ count is_write
       (events (convertWordToPDFAlternative env_no_engine "in.docx" sampleDocument None)
          initial) = 1%nat.
Proof.
  assert (H : result (convertWordToPDFAlternative env_no_engine "in.docx" sampleDocument
                        None) initial
              = Ok "/app/pdfs/QC-SOP-001_v2_fallback_1700000000000.pdf")
    by (vm_compute; reflexivity).
  split; [exact H|].
  destruct (fallback_success_trace _ _ _ _ _ _ H) as (b & c & f & _ & _ & _ & ->).
  reflexivity.
Defined.

(** X4.  Given a source file from which plain text can be extracted, the
    fallback renderer returns its file whenever each call it makes succeeds:
    pdf-lib loads, creates the document, embeds the two fonts, draws the five
    texts of the header and the cleaned lines of the text, and saves the
    document laid out, and the file system writes the saved bytes to the
    file.  The coordinator then returns that file whenever the primary
    renderer threw, whatever it threw. *)
Theorem pipeline_degrades_to_fallback env path doc cc content pdfBytes :
  is_ok (import_pdf_lib env) = true ->
  fallbackExtraction env path = Ok content ->
  is_ok (PDFDocument_create env) = true ->
  is_ok (pdfDoc_embedFont env Helvetica) = true ->
  is_ok (pdfDoc_embedFont env HelveticaBold) = true ->
  forallb (drawable env)
    (texts_of (headerOps env doc (toUpperCase env (str_or (headerInfo doc) "")))) = true ->
  forallb (drawable env) (map cleaned (contentLines content)) = true ->
  pdfDoc_save env (fallbackDocument env doc content) = Ok pdfBytes ->
  is_ok (fs_writeFile env (path_join [pdfsDir env; fallbackName env doc]) pdfBytes) = true ->
  result (convertWordToPDFAlternative env path doc cc) initial
  = Ok (path_join [pdfsDir env; fallbackName env doc])
  /\ match result (convertWordToPDFWithPuppeteer env path doc cc) initial with
     | Ok p => result (convertWordToPDF env path doc cc) initial = Ok p
     | Err _ =>
         result (convertWordToPDF env path doc cc) initial
         = Ok (path_join [pdfsDir env; fallbackName env doc])
     end.
Proof.
  intros Hi He Hc F1 F2 Hh Hl Hs Hw.
  pose proof (fallback_returns env path doc cc initial content pdfBytes
                Hi He Hc F1 F2 Hh Hl Hs Hw) as H.
  split; [exact H|].
  destruct (coordinator_events env path doc cc) as [_ ->].
  destruct (result (convertWordToPDFWithPuppeteer env path doc cc) initial);
    [reflexivity | exact H].
Qed.

(** A font that encodes the printable ASCII characters only: it refuses the
    character of code 1, and the render of the sample document goes
    through. *)
Lemma pipeline_degrades_to_fallback_witness :
  fallbackExtraction env_ascii_font "in.docx" = Ok ("Scope" ++ nl ++ "Purpose")
  /\ drawable env_ascii_font (String "001"%char "") = false
  /\ result (convertWordToPDFWithPuppeteer env_ascii_font "in.docx" sampleDocument None)
       initial = Err "Failed to launch the browser process"
  /\ result (convertWordToPDFAlternative env_ascii_font "in.docx" sampleDocument None)
       initial
     = Ok (path_join [pdfsDir env_ascii_font; fallbackName env_ascii_font sampleDocument]).
Proof.
  split; [reflexivity|]. split; [reflexivity|]. split; [vm_compute; reflexivity|].
  apply (pipeline_degrades_to_fallback env_ascii_font "in.docx" sampleDocument None
           ("Scope" ++ nl ++ "Purpose") []);
    vm_compute; reflexivity.
Defined.

(** ** More on the pages of the fallback renderer *)

Lemma pagesOf_length (lines : list string) :
  forall done cur,
    (List.length cur <= linesPerPage)%nat ->
    List.length (pagesOf lines done cur)
    = (List.length done
       + Nat.max 1 ((List.length cur + List.length lines + 34) / 35))%nat.
Proof.
  unfold linesPerPage.
  induction lines as [|l lines IH]; intros done cur Hcur; cbn [pagesOf List.length].
  - rewrite length_app. cbn [List.length].
    assert ((List.length cur + 0 + 34) / 35 < 2)%nat
      by (apply Nat.Div0.div_lt_upper_bound; lia).
    lia.
  - unfold linesPerPage. destruct (Nat.leb_spec 35 (List.length cur)).
    + rewrite IH by (simpl; lia). rewrite length_app. cbn [List.length].
      replace (List.length cur + S (List.length lines) + 34)%nat
        with (1 * 35 + (1 + List.length lines + 34))%nat by lia.
      rewrite Nat.div_add_l by lia.
      assert (0 < (1 + List.length lines + 34) / 35)%nat
        by (apply Nat.div_str_pos; lia).
      lia.
    + rewrite IH by (rewrite length_app; simpl; lia).
      rewrite length_app. cbn [List.length].
      replace (List.length cur + 1 + List.length lines + 34)%nat
        with (List.length cur + S (List.length lines) + 34)%nat by lia.
      reflexivity.
Qed.

(** X5.  A fallback render that succeeds saves one page for a text without
    a line to draw and otherwise one page for every 35 lines drawn, the last
    one possibly short: [max 1 (ceil (n / 35))] pages for [n] non-blank
    lines. *)
Theorem fallback_page_count env path doc cc s p :
  result (convertWordToPDFAlternative env path doc cc) s = Ok p ->
  exists content d,
    fallbackExtraction env path = Ok content
    /\ savedDocument (events (convertWordToPDFAlternative env path doc cc) s) = Some d
    /\ List.length d
       = Nat.max 1 ((List.length (contentLines content) + 34) / 35).
Proof.
  intros H. apply fallback_success in H.
  destruct H as (buf & content & Hread & Htext & Hsaved & _).
  exists content, (fallbackDocument env doc content).
  split; [now apply (fallbackExtraction_ok env path buf)|].
  split; [exact Hsaved|].
  unfold fallbackDocument. rewrite length_map, pagesOf_length by (simpl; lia).
  reflexivity.
Qed.

Lemma fallback_page_count_witness :
  result (convertWordToPDFAlternative env_two_pages "in.docx" sampleDocument None) initial
  = Ok "/app/pdfs/QC-SOP-001_v2_fallback_1700000000000.pdf"
  /\ List.length (contentLines (join nl (repeat "Clause" 36))) = 36%nat
  /\ exists d,
       savedDocument
         (events (convertWordToPDFAlternative env_two_pages "in.docx" sampleDocument None)
            initial) = Some d
       /\ List.length d = 2%nat.
Proof.
  assert (H : result (convertWordToPDFAlternative env_two_pages "in.docx" sampleDocument
                        None) initial
              = Ok "/app/pdfs/QC-SOP-001_v2_fallback_1700000000000.pdf")
    by (vm_compute; reflexivity).
  split; [exact H|]. split; [vm_compute; reflexivity|].
  destruct (fallback_page_count _ _ _ _ _ _ H) as (content & d & He & Hs & Hl).
  exists d. split; [exact Hs|].
  assert (Hc : content = join nl (repeat "Clause" 36))
    by (vm_compute in He; injection He as <-; vm_compute; reflexivity).
  rewrite Hl, Hc. vm_compute. reflexivity.
Defined.

(** *** Blank text *)

Lemma trimStart_white (s : string) :
  string_forallb is_white_space s = true -> trimStart s = "".
Proof.
  induction s as [|c s IH]; [reflexivity|].
  cbn [string_forallb trimStart]. intros H. apply andb_true_iff in H.
  destruct H as [-> Hs]. now apply IH.
Qed.

Lemma split_white (c : ascii) (s : string) :
  string_forallb is_white_space s = true ->
  Forall (fun seg => string_forallb is_white_space seg = true) (split c s).
Proof.
  induction s as [|a s IH]; cbn [split string_forallb]; intros H.
  - repeat constructor.
  - apply andb_true_iff in H. destruct H as [Ha Hs]. specialize (IH Hs).
    destruct (Ascii.eqb a c); [constructor; [reflexivity | exact IH]|].
    destruct (split c s) as [|seg rest].
    + constructor; [|constructor]. cbn [string_forallb]. now rewrite Ha.
    + inversion IH; subst. constructor; [|assumption].
      cbn [string_forallb]. now rewrite Ha.
Qed.

Lemma contentLines_white (content : string) :
  string_forallb is_white_space content = true -> contentLines content = [].
Proof.
  intros H. unfold contentLines.
  pose proof (split_white "010" content H) as Hs.
  induction Hs as [|seg rest Hseg _ IH]; [reflexivity|].
  cbn [filter]. unfold trim. rewrite (trimStart_white seg Hseg). exact IH.
Qed.

(** X6.  When the extracted text is empty or holds white space only, a
    fallback render that succeeds saves a document of one page that holds the
    header block and nothing else. *)
Theorem blank_text_gives_header_only_page env path doc cc s p content :
  fallbackExtraction env path = Ok content ->
  string_forallb is_white_space content = true ->
  result (convertWordToPDFAlternative env path doc cc) s = Ok p ->
  savedDocument (events (convertWordToPDFAlternative env path doc cc) s)
  = Some [headerOps env doc (toUpperCase env (str_or (headerInfo doc) ""))].
Proof.
  intros He Hw H. apply fallback_success in H.
  destruct H as (buf & content' & Hread & Htext & Hsaved & _).
  pose proof (fallbackExtraction_ok env path buf content' Hread Htext) as He'.
  rewrite He in He'. injection He' as <-.
  rewrite Hsaved. unfold fallbackDocument. rewrite (contentLines_white content Hw).
  cbn [pagesOf app map]. now rewrite pageOf_nil.
Qed.

Lemma blank_text_gives_header_only_page_witness :
  fallbackExtraction env_blank_text "in.docx" = Ok ("  " ++ nl ++ nl ++ " ")
  /\ string_forallb is_white_space ("  " ++ nl ++ nl ++ " ") = true
  /\ result (convertWordToPDFAlternative env_blank_text "in.docx" sampleDocument None)
       initial = Ok "/app/pdfs/QC-SOP-001_v2_fallback_1700000000000.pdf"
  /\ savedDocument
       (events (convertWordToPDFAlternative env_blank_text "in.docx" sampleDocument None)
          initial)
     = Some [headerOps env_blank_text sampleDocument
               (toUpperCase env_blank_text (str_or (headerInfo sampleDocument) ""))].
Proof.
  assert (H : result (convertWordToPDFAlternative env_blank_text "in.docx" sampleDocument
                        None) initial
              = Ok "/app/pdfs/QC-SOP-001_v2_fallback_1700000000000.pdf")
    by (vm_compute; reflexivity).
  split; [reflexivity|]. split; [reflexivity|]. split; [exact H|].
  exact (blank_text_gives_header_only_page env_blank_text "in.docx" sampleDocument None
           initial _ _ eq_refl eq_refl H).
Defined.

(** *** Where the lines are drawn *)

Lemma bodyOps_in_band (lines : list string) (y : Z) :
  y <= firstLineY ->
  pt 150 <= y - pt 15 * (Z.of_nat (List.length lines) - 1) ->
  forallb body_line (bodyOps lines y) = true.
Proof.
  revert y. induction lines as [|l lines IH]; intros y Hhi Hlo; [reflexivity|].
  cbn [bodyOps forallb body_line]. cbn [List.length] in Hlo.
  rewrite IH by (unfold pt in *; lia).
  rewrite Z.eqb_refl. change (10 =? 10)%Z with true.
  replace (pt 150 <=? y)%Z with true by (symmetry; apply Z.leb_le; unfold pt in *; lia).
  replace (y <=? firstLineY)%Z with true by (symmetry; apply Z.leb_le; lia).
  reflexivity.
Qed.

(** X7.  In a fallback render that succeeds, whatever follows the header
    block of a page is a line of the body: a text in Helvetica 10 at
    [x = 50], at a height between 150 points, the threshold, and 671.89
    points, the first line; no page holds more than 35 of them. *)
Theorem fallback_lines_stay_in_band env path doc cc s p :
  result (convertWordToPDFAlternative env path doc cc) s = Ok p ->
  exists d,
    savedDocument (events (convertWordToPDFAlternative env path doc cc) s) = Some d
    /\ Forall (fun pg => forallb body_line (skipn 6 pg) = true
                         /\ (List.length (skipn 6 pg) <= 35)%nat) d.
Proof.
  intros H. apply fallback_success in H.
  destruct H as (buf & content & _ & _ & Hsaved & _).
  exists (fallbackDocument env doc content). split; [exact Hsaved|].
  unfold fallbackDocument.
  destruct (pagesOf_sizes (contentLines content) [] []) as (full & last & -> & Hf & Hl & _);
    [constructor | simpl; lia | now left |].
  assert (Hall : Forall (fun g : list string => (List.length g <= 35)%nat) (full ++ [last])).
  { apply Forall_app. split.
    - revert Hf. apply Forall_impl. unfold linesPerPage. intros g ->. lia.
    - constructor; [exact Hl | constructor]. }
  apply Forall_map. revert Hall. apply Forall_impl. intros g Hg.
  unfold pageOf, headerOps. cbn [app skipn].
  assert (Hlen : forall ls y, List.length (bodyOps ls y) = List.length ls)
    by (induction ls; intros; cbn [bodyOps List.length]; auto).
  rewrite Hlen. split; [|exact Hg].
  apply bodyOps_in_band; [lia|]. unfold firstLineY, pageHeight, pt. lia.
Qed.

Lemma fallback_lines_stay_in_band_witness :
  result (convertWordToPDFAlternative env_two_pages "in.docx" sampleDocument None) initial
  = Ok "/app/pdfs/QC-SOP-001_v2_fallback_1700000000000.pdf"
  /\ exists d,
       savedDocument
         (events (convertWordToPDFAlternative env_two_pages "in.docx" sampleDocument None)
            initial) = Some d
       /\ Forall (fun pg => forallb body_line (skipn 6 pg) = true
                            /\ (List.length (skipn 6 pg) <= 35)%nat) d.
Proof.
  assert (H : result (convertWordToPDFAlternative env_two_pages "in.docx" sampleDocument
                        None) initial
              = Ok "/app/pdfs/QC-SOP-001_v2_fallback_1700000000000.pdf")
    by (vm_compute; reflexivity).
  split; [exact H|]. exact (fallback_lines_stay_in_band _ _ _ _ _ _ H).
Defined.

(** ** More on the templates of the primary path *)

Lemma str_or_firstNonEmpty (a : option string) (rest : list (option string))
    (default : string) :
  str_or a (firstNonEmpty rest default) = firstNonEmpty (a :: rest) default.
Proof. destruct a; reflexivity. Qed.

(** X8.  The footer shows, under each of its three role labels, the first
    non-empty name among the name stored on the document and the full name of
    the joined user, and otherwise the placeholder of the role: ["Asst. MR"],
    ["HOD"] and ["Management Representative { MR }"]; an empty name counts as
    a missing one.  Under ["Status"] it shows the status in upper case. *)
Theorem footer_roles_fall_back env doc cc :
  includes ("Prepared by</span>" ++ nl ++ "              <span class=" ++ dq
            ++ "footer-value" ++ dq ++ ">"
            ++ firstNonEmpty [preparerName doc; fullName_of (creatorData doc)] "Asst. MR"
            ++ "</span>") (getFooterTemplate env doc cc) = true
  /\ includes ("Approved by</span>" ++ nl ++ "              <span class=" ++ dq
               ++ "footer-value" ++ dq ++ ">"
               ++ firstNonEmpty [approverName doc; fullName_of (approverData doc)] "HOD"
               ++ "</span>") (getFooterTemplate env doc cc) = true
  /\ includes ("Issued by</span>" ++ nl ++ "              <span class=" ++ dq
               ++ "footer-value" ++ dq ++ ">"
               ++ firstNonEmpty [issuerName doc; fullName_of (issuerData doc)]
                    "Management Representative { MR }"
               ++ "</span>") (getFooterTemplate env doc cc) = true
  /\ includes ("Status</span>" ++ nl ++ "              " ++ toUpperCase env (status doc)
               ++ nl) (getFooterTemplate env doc cc) = true.
Proof.
  rewrite <- !str_or_firstNonEmpty. cbn [firstNonEmpty].
  unfold getFooterTemplate; cbv zeta.
  repeat split; find_infix.
Qed.

(** X9.  The department cell of the header shows the first department of
    the document only, and ["Management Representative"] when the list is
    missing or empty or its first name is empty. *)
Theorem header_department_is_first_or_default env doc :
  includes ("Dept. :</span> "
            ++ match departmentNames doc with
               | Some (first :: _) =>
                   if String.eqb first "" then "Management Representative" else first
               | _ => "Management Representative"
               end
            ++ "</td>") (getHeaderTemplate env doc) = true.
Proof.
  replace (match departmentNames doc with
           | Some (first :: _) =>
               if String.eqb first "" then "Management Representative" else first
           | _ => "Management Representative"
           end)
    with (str_or (first_of (departmentNames doc)) "Management Representative")
    by (destruct (departmentNames doc) as [[|? ?]|]; reflexivity).
  unfold getHeaderTemplate; cbv zeta. find_infix.
Qed.

Lemma pad2_reads (n : Z) : 0 <= n <= 99 -> digits_value (pad2 n) = n.
Proof.
  intros H.
  assert (A : forallb (fun k => (digits_value (pad2 k) =? k)%Z)
                (map (fun k => 0 + Z.of_nat k) (seq 0 100)) = true)
    by (vm_compute; reflexivity).
  rewrite forallb_forall in A. apply Z.eqb_eq, A, in_range. lia.
Qed.

Lemma year_reads (n : Z) : 1000 <= n <= 9999 -> digits_value (string_of_Z n) = n.
Proof.
  intros H.
  assert (A : forallb (fun k => (digits_value (string_of_Z k) =? k)%Z)
                (map (fun k => 1000 + Z.of_nat k) (seq 0 (Z.to_nat 9000))) = true)
    by (vm_compute; reflexivity).
  rewrite forallb_forall in A. apply Z.eqb_eq, A, in_range. lia.
Qed.

(** In the locale [en-GB] the first two characters of a date write its day,
    the fourth and fifth its month and the last four its year. *)
Lemma en_GB_date_reads (l : Locale) (d : DateVal) :
  valid_date d ->
  digits_value (substring 0 2 (toLocaleDateString l (Some en_GB) d)) = day d
  /\ digits_value (substring 3 2 (toLocaleDateString l (Some en_GB) d)) = month d
  /\ digits_value (substring 6 4 (toLocaleDateString l (Some en_GB) d)) = year d.
Proof.
  intros (Hd & Hm & Hy). unfold toLocaleDateString.
  pose proof (pad2_two_digits (day d) ltac:(lia)) as D.
  pose proof (pad2_two_digits (month d) ltac:(lia)) as Mo.
  pose proof (year_four_digits (year d) Hy) as Y.
  pose proof (pad2_reads (day d) ltac:(lia)) as RD.
  pose proof (pad2_reads (month d) ltac:(lia)) as RM.
  pose proof (year_reads (year d) Hy) as RY.
  destruct (pad2 (day d)) as [|d1 [|d2 [|]]]; try discriminate D.
  destruct (pad2 (month d)) as [|m1 [|m2 [|]]]; try discriminate Mo.
  destruct (string_of_Z (year d)) as [|y1 [|y2 [|y3 [|y4 [|]]]]]; try discriminate Y.
  cbv [append substring]. repeat split; assumption.
Qed.

(** X10.  For a document whose date of issue is a calendar day of a
    four-digit year, the header shows that day as [DD/MM/YYYY], the day
    first, then the month, then the year, and it shows it twice: as the date
    of issue and again as the date of revision, which the service takes from
    the same field. *)
Theorem header_dates_are_DDMMYYYY env doc d :
  dateOfIssue doc = Some d ->
  valid_date d ->
  exists shown,
    is_DDMMYYYY shown = true
    /\ digits_value (substring 0 2 shown) = day d
    /\ digits_value (substring 3 2 shown) = month d
    /\ digits_value (substring 6 4 shown) = year d
    /\ includes ("Date of Issue:</span> " ++ shown ++ "</td>") (getHeaderTemplate env doc)
       = true
    /\ includes ("Date of Rev. :</span> " ++ shown ++ "</div>") (getHeaderTemplate env doc)
       = true.
Proof.
  intros Hd Hv. exists (toLocaleDateString (defaultLocale env) (Some en_GB) d).
  split; [now apply en_GB_date_shape|].
  destruct (en_GB_date_reads (defaultLocale env) d Hv) as (Rd & Rm & Ry).
  split; [exact Rd|]. split; [exact Rm|]. split; [exact Ry|].
  unfold getHeaderTemplate; cbv zeta. rewrite Hd. split; find_infix.
Qed.

(** The fifth of March 2024 is shown as [05/03/2024]. *)
Lemma header_dates_are_DDMMYYYY_witness :
  dateOfIssue sampleDocument = Some {| year := 2024; month := 3; day := 5 |}
  /\ valid_date {| year := 2024; month := 3; day := 5 |}
  /\ includes "Date of Issue:</span> 05/03/2024</td>"
       (getHeaderTemplate env_available sampleDocument) = true
  /\ exists shown,
       is_DDMMYYYY shown = true
       /\ digits_value (substring 0 2 shown) = 5
       /\ digits_value (substring 3 2 shown) = 3
       /\ digits_value (substring 6 4 shown) = 2024
       /\ includes ("Date of Issue:</span> " ++ shown ++ "</td>")
            (getHeaderTemplate env_available sampleDocument) = true
       /\ includes ("Date of Rev. :</span> " ++ shown ++ "</div>")
            (getHeaderTemplate env_available sampleDocument) = true.
Proof.
  assert (Hv : valid_date {| year := 2024; month := 3; day := 5 |})
    by (unfold valid_date; simpl; lia).
  split; [reflexivity|]. split; [exact Hv|]. split; [vm_compute; reflexivity|].
  exact (header_dates_are_DDMMYYYY env_available sampleDocument _ eq_refl Hv).
Defined.

(** X11.  The page handed to the browser holds, as its heading, the name
    of the document as [toUpperCase] of the runtime returns it, and the
    converted markup as it is; the stored content of the document follows in
    a block of its own when it is a non-empty string, and a missing or empty
    content leaves the same page. *)
Theorem themed_page_holds_title_and_body env doc body cc :
  includes ("<h1>" ++ toUpperCase env (docName doc) ++ "</h1>")
    (wrapWithHeavyDutyTheme env doc body cc) = true
  /\ includes ("<div class=" ++ dq ++ "document-content" ++ dq ++ ">" ++ nl ++ "      "
               ++ body ++ nl ++ "    </div>") (wrapWithHeavyDutyTheme env doc body cc) = true
  /\ match content doc with
     | Some (String c rest) =>
         includes ("<div style=" ++ dq ++ "margin-top: 20px;" ++ dq ++ ">"
                   ++ String c rest ++ "</div>") (wrapWithHeavyDutyTheme env doc body cc) = true
     | _ =>
         includes ("    </div>" ++ nl ++ "    " ++ nl ++ "  </div>")
           (wrapWithHeavyDutyTheme env doc body cc) = true
     end.
Proof.
  unfold wrapWithHeavyDutyTheme.
  split; [find_infix|]. split; [find_infix|].
  assert (Hnil : forall t : string, "" ++ t = t) by reflexivity.
  destruct (content doc) as [[|c rest]|]; cbn [String.eqb]; rewrite ?Hnil; find_infix.
Qed.

(** X12.  With [controlCopyInfo], a primary render that succeeds has
    printed, with header and footer shown, a footer template that includes
    ["CONTROLLED COPY - NOT FOR REPRODUCTION | Printed by: "] followed by the
    full name of the recipient. *)
Theorem primary_prints_controlled_copy_stamp env path doc info s p :
  result (convertWordToPDFWithPuppeteer env path doc (Some info)) s = Ok p ->
  exists options,
    printOptions (events (convertWordToPDFWithPuppeteer env path doc (Some info)) s)
    = Some options
    /\ displayHeaderFooter options = true
    /\ includes ("CONTROLLED COPY - NOT FOR REPRODUCTION | Printed by: "
                 ++ userFullName info ++ nl) (footerTemplate options) = true.
Proof.
  intros H. apply primary_prints_with_templates in H.
  eexists. split; [exact H|]. split; [reflexivity|].
  unfold pdfOptions, footerTemplate, pdfFooterTemplate, getFooterTemplate,
    controlCopyBanner; cbv zeta.
  find_infix.
Qed.

Lemma primary_prints_controlled_copy_stamp_witness :
  result (convertWordToPDFWithPuppeteer env_available "in.docx" sampleDocument
            (Some sampleControlCopy)) initial
  = Ok "/app/pdfs/QC-SOP-001_v2_final_1700000000000.pdf"
  /\ exists options,
       printOptions
         (events (convertWordToPDFWithPuppeteer env_available "in.docx" sampleDocument
                    (Some sampleControlCopy)) initial) = Some options
       /\ displayHeaderFooter options = true
       /\ includes ("CONTROLLED COPY - NOT FOR REPRODUCTION | Printed by: "
                    ++ userFullName sampleControlCopy ++ nl) (footerTemplate options)
          = true.
Proof.
  assert (H : result (convertWordToPDFWithPuppeteer env_available "in.docx" sampleDocument
                        (Some sampleControlCopy)) initial
              = Ok "/app/pdfs/QC-SOP-001_v2_final_1700000000000.pdf")
    by (vm_compute; reflexivity).
  split; [exact H|]. exact (primary_prints_controlled_copy_stamp _ _ _ _ _ _ H).
Defined.

(** ** Uploads *)

Lemma path_normalize_absolute (p : string) :
  starts_with_slash p = true ->
  path_normalize p
  = if String.eqb (join "/" (normalizeSegments false [] (split "/" p))) "" then "/"
    else "/" ++ (if ends_with_slash p
                 then join "/" (normalizeSegments false [] (split "/" p)) ++ "/"
                 else join "/" (normalizeSegments false [] (split "/" p))).
Proof.
  intros H. unfold path_normalize. destruct p as [|c p]; [discriminate|].
  change (String.eqb (String c p) "") with false. cbv iota zeta. rewrite H.
  reflexivity.
Qed.

(** A directory joined to an absolute path: the segments of the result. *)
Lemma join_dir_shape (cwd d : string) :
  starts_with_slash cwd = true -> plain_segment d = true ->
  Forall (fun seg => plain_segment seg = true)
    (normalizeSegments false [] (split "/" cwd) ++ [d])%list
  /\ path_join [cwd; d]
     = "/" ++ join "/" (normalizeSegments false [] (split "/" cwd) ++ [d])%list.
Proof.
  intros Habs Hd.
  pose proof (plain_segment_inv _ Hd) as (Hns & Hd0 & _ & _).
  assert (Hdn : d <> "") by (intros ->; discriminate).
  set (N := normalizeSegments false [] (split "/" cwd)).
  assert (Hplain : Forall (fun seg => plain_segment seg = true) (N ++ [d])%list).
  { apply Forall_app. split; [|now repeat constructor].
    apply normalizeSegments_root_plain; [apply split_segments_no_slash | constructor]. }
  split; [exact Hplain|].
  destruct cwd as [|c cwd]; [discriminate|].
  unfold path_join. cbn [filter String.eqb negb]. rewrite Hd0. cbn [negb].
  change (join "/" [String c cwd; d]) with (String c cwd ++ String "/" d).
  rewrite path_normalize_absolute; [|exact Habs].
  rewrite split_append, (split_no_slash d Hns), normalizeSegments_app. fold N.
  rewrite (normalizeSegments_plain false [d]) by now repeat constructor.
  rewrite rev_involutive.
  rewrite join_plain_nonempty; [| apply snoc_nonempty | exact Hplain].
  replace (ends_with_slash (String c cwd ++ String "/" d)) with false; [reflexivity|].
  symmetry. change (String "/" d) with ("/" ++ d). rewrite <- append_assoc.
  rewrite ends_with_slash_append by exact Hdn. now apply no_slash_ends.
Qed.

(** Joining in two steps under an absolute directory is joining at once. *)
Lemma path_join_in_two_steps (cwd d name : string) :
  starts_with_slash cwd = true -> plain_segment d = true -> name <> "" ->
  path_join [path_join [cwd; d]; name] = path_join [cwd; d ++ "/" ++ name].
Proof.
  intros Habs Hd Hname.
  destruct (join_dir_shape cwd d Habs Hd) as [Hplain Hdir].
  pose proof (plain_segment_inv _ Hd) as (Hns & Hd0 & _ & _).
  set (N := normalizeSegments false [] (split "/" cwd)) in *.
  assert (Hn0 : String.eqb name "" = false) by (destruct name; [contradiction | reflexivity]).
  rewrite Hdir.
  change ("/" ++ join "/" (N ++ [d])%list) with (String "/" (join "/" (N ++ [d])%list)).
  (* the left side *)
  unfold path_join at 1. cbn [filter String.eqb negb]. rewrite Hn0. cbn [negb].
  change (join "/" [String "/" (join "/" (N ++ [d])); name])
    with (String "/" (join "/" (N ++ [d])%list ++ String "/" name)).
  rewrite path_normalize_absolute; [|reflexivity].
  change (split "/" (String "/" (join "/" (N ++ [d])%list ++ String "/" name)))
    with ("" :: split "/" (join "/" (N ++ [d])%list ++ String "/" name)).
  rewrite split_append, split_join;
    [| apply snoc_nonempty | now apply plain_no_slash].
  change (normalizeSegments false [] ("" :: (N ++ [d]) ++ split "/" name)%list)
    with (normalizeSegments false [] ((N ++ [d]) ++ split "/" name)%list).
  rewrite normalizeSegments_app, (normalizeSegments_plain false (N ++ [d])%list [])
    by exact Hplain.
  cbn [rev app].
  replace (ends_with_slash (String "/" (join "/" (N ++ [d])%list ++ String "/" name)))
    with (ends_with_slash name).
  2:{ symmetry.
      replace (String "/" (join "/" (N ++ [d])%list ++ String "/" name))
        with (("/" ++ join "/" (N ++ [d])%list ++ "/") ++ name)
        by (rewrite !append_assoc; reflexivity).
      now apply ends_with_slash_append. }
  (* the right side *)
  destruct cwd as [|c cwd]; [discriminate|].
  assert (Hdn : String.eqb (d ++ "/" ++ name) "" = false)
    by (destruct d; [discriminate | reflexivity]).
  unfold path_join. cbn [filter String.eqb negb]. rewrite Hdn. cbn [negb].
  change (join "/" [String c cwd; d ++ "/" ++ name])
    with (String c cwd ++ String "/" (d ++ String "/" name)).
  rewrite path_normalize_absolute; [|exact Habs].
  rewrite split_append, split_append, (split_no_slash d Hns), app_assoc.
  rewrite (normalizeSegments_app false (split "/" (String c cwd) ++ [d])%list).
  rewrite (normalizeSegments_app false (split "/" (String c cwd)) [d]). fold N.
  rewrite (normalizeSegments_plain false [d]) by now repeat constructor.
  rewrite rev_involutive.
  replace (ends_with_slash (String c cwd ++ String "/" (d ++ String "/" name)))
    with (ends_with_slash name); [reflexivity|].
  symmetry.
  replace (String c cwd ++ String "/" (d ++ String "/" name))
    with ((String c cwd ++ "/" ++ d ++ "/") ++ name)
    by (rewrite !append_assoc; reflexivity).
  now apply ends_with_slash_append.
Qed.

Lemma string_of_uint_digits (d : Decimal.uint) :
  d <> Decimal.Nil -> NilEmpty.string_of_uint d <> "".
Proof. destruct d; [contradiction | discriminate ..]. Qed.

Lemma string_of_Z_nonempty (z : Z) : (1 <= String.length (string_of_Z z))%nat.
Proof.
  unfold string_of_Z, NilZero.string_of_int, NilZero.string_of_uint.
  destruct (Z.to_int z) as [d|d]; destruct d; simpl; lia.
Qed.

Ltac unfold_upload :=
  unfold saveUploadedFile, ensureDirectories, dbind, dcall, dret; cbn [fst snd].

(** X13.  On a server that runs in an absolute directory, an upload that
    succeeds has asked for the directory [uploads], then for the directory
    [pdfs], and then written the buffer once; the string it returns,
    [uploads/{documentId}_{Date.now()}_{originalName}], taken from the
    working directory, is the file it has written. *)
Theorem saved_upload_is_where_it_says e fileBuffer originalName documentId t rel t' :
  starts_with_slash (process_cwd (outside e)) = true ->
  saveUploadedFile e fileBuffer originalName documentId t = (Ok rel, t') ->
  rel = "uploads/" ++ documentId ++ "_" ++ string_of_Z (Date_now (outside e)) ++ "_"
        ++ originalName
  /\ t' = (t ++ [ FsMkdir (uploadsDir (outside e)); FsMkdir (pdfsDir (outside e));
                  FsWrite (path_join [process_cwd (outside e); rel]) fileBuffer ])%list.
Proof.
  intros Habs. unfold_upload.
  destruct (fs_mkdir e (uploadsDir (outside e))); [|discriminate].
  destruct (fs_mkdir e (pdfsDir (outside e))); [|discriminate].
  destruct (fs_writeFile (outside e) _ fileBuffer); [|discriminate].
  intros H. injection H as <- <-. split; [reflexivity|].
  rewrite <- !app_assoc. cbn [app]. do 5 f_equal.
  unfold uploadsDir. change ("uploads/" ++ ?n) with ("uploads" ++ "/" ++ n).
  apply path_join_in_two_steps; [exact Habs | reflexivity |].
  destruct documentId; discriminate.
Qed.

Lemma saved_upload_is_where_it_says_witness :
  starts_with_slash (process_cwd (outside dirs_available)) = true
  /\ saveUploadedFile dirs_available [] "manual.docx" "doc-7" []
     = (Ok "uploads/doc-7_1700000000000_manual.docx",
        [ FsMkdir "/app/uploads"; FsMkdir "/app/pdfs";
          FsWrite "/app/uploads/doc-7_1700000000000_manual.docx" [] ])
  /\ "uploads/doc-7_1700000000000_manual.docx"
     = "uploads/" ++ "doc-7" ++ "_" ++ string_of_Z (Date_now (outside dirs_available))
       ++ "_" ++ "manual.docx".
Proof.
  assert (H : saveUploadedFile dirs_available [] "manual.docx" "doc-7" []
              = (Ok "uploads/doc-7_1700000000000_manual.docx",
                 [ FsMkdir "/app/uploads"; FsMkdir "/app/pdfs";
                   FsWrite "/app/uploads/doc-7_1700000000000_manual.docx" [] ]))
    by (vm_compute; reflexivity).
  split; [reflexivity|]. split; [exact H|].
  exact (proj1 (saved_upload_is_where_it_says dirs_available [] "manual.docx" "doc-7" []
                  _ _ eq_refl H)).
Defined.

(** X14.  Where neither the document id nor the original name holds a [/],
    the file of an upload that succeeds is the file
    [{documentId}_{Date.now()}_{originalName}] of the directory [uploads]. *)
Theorem plain_upload_stays_in_uploads e fileBuffer originalName documentId t rel t' :
  starts_with_slash (process_cwd (outside e)) = true ->
  no_slash documentId = true ->
  no_slash originalName = true ->
  saveUploadedFile e fileBuffer originalName documentId t = (Ok rel, t') ->
  last t' (FsMkdir "")
  = FsWrite (uploadsDir (outside e) ++ "/" ++ documentId ++ "_"
             ++ string_of_Z (Date_now (outside e)) ++ "_" ++ originalName) fileBuffer.
Proof.
  intros Habs Hid Hname. unfold_upload.
  destruct (fs_mkdir e (uploadsDir (outside e))); [|discriminate].
  destruct (fs_mkdir e (pdfsDir (outside e))); [|discriminate].
  destruct (fs_writeFile (outside e) _ fileBuffer); [|discriminate].
  intros H. injection H as _ <-. rewrite last_last. f_equal.
  destruct (join_dir_shape (process_cwd (outside e)) "uploads" Habs eq_refl)
    as [Hplain Hdir].
  unfold uploadsDir. rewrite Hdir.
  apply path_join_under; [apply snoc_nonempty | exact Hplain |].
  apply long_segment_plain.
  - rewrite !no_slash_append, Hid, Hname, no_slash_string_of_Z. reflexivity.
  - rewrite !length_append. pose proof (string_of_Z_nonempty (Date_now (outside e))).
    simpl. lia.
Qed.

Lemma plain_upload_stays_in_uploads_witness :
  starts_with_slash (process_cwd (outside dirs_available)) = true
  /\ no_slash "doc-7" = true /\ no_slash "manual.docx" = true
  /\ saveUploadedFile dirs_available [] "manual.docx" "doc-7" []
     = (Ok "uploads/doc-7_1700000000000_manual.docx",
        [ FsMkdir "/app/uploads"; FsMkdir "/app/pdfs";
          FsWrite "/app/uploads/doc-7_1700000000000_manual.docx" [] ])
  /\ last [ FsMkdir "/app/uploads"; FsMkdir "/app/pdfs";
            FsWrite "/app/uploads/doc-7_1700000000000_manual.docx" [] ] (FsMkdir "")
     = FsWrite (uploadsDir (outside dirs_available) ++ "/" ++ "doc-7" ++ "_"
                ++ string_of_Z (Date_now (outside dirs_available)) ++ "_" ++ "manual.docx")
         [].
Proof.
  assert (H : saveUploadedFile dirs_available [] "manual.docx" "doc-7" []
              = (Ok "uploads/doc-7_1700000000000_manual.docx",
                 [ FsMkdir "/app/uploads"; FsMkdir "/app/pdfs";
                   FsWrite "/app/uploads/doc-7_1700000000000_manual.docx" [] ]))
    by (vm_compute; reflexivity).
  split; [reflexivity|]. split; [reflexivity|]. split; [reflexivity|]. split; [exact H|].
  exact (plain_upload_stays_in_uploads dirs_available [] "manual.docx" "doc-7" []
           _ _ eq_refl eq_refl eq_refl H).
Defined.

(** X15.  When one of the two directories cannot be made, an upload throws
    and writes nothing: the trace holds no more writes than before; and the
    directory [pdfs] is asked for only after [uploads] was made. *)
Theorem upload_needs_both_directories e fileBuffer originalName documentId t :
  is_ok (fs_mkdir e (uploadsDir (outside e))) && is_ok (fs_mkdir e (pdfsDir (outside e)))
  = false ->
  is_ok (fst (saveUploadedFile e fileBuffer originalName documentId t)) = false
  /\ filter is_fs_write (snd (saveUploadedFile e fileBuffer originalName documentId t))
     = filter is_fs_write t
  /\ snd (saveUploadedFile e fileBuffer originalName documentId t)
     = (t ++ FsMkdir (uploadsDir (outside e))
          :: (if is_ok (fs_mkdir e (uploadsDir (outside e)))
              then [FsMkdir (pdfsDir (outside e))] else []))%list.
Proof.
  unfold_upload.
  destruct (fs_mkdir e (uploadsDir (outside e))); cbn [is_ok andb fst snd].
  - destruct (fs_mkdir e (pdfsDir (outside e))); cbn [is_ok fst snd]; [discriminate|].
    intros _. rewrite <- app_assoc, filter_app. cbn [app filter is_fs_write].
    now rewrite app_nil_r.
  - intros _. rewrite filter_app. cbn [filter is_fs_write]. now rewrite app_nil_r.
Qed.

Lemma upload_needs_both_directories_witness :
  is_ok (fs_mkdir dirs_read_only (uploadsDir (outside dirs_read_only)))
  && is_ok (fs_mkdir dirs_read_only (pdfsDir (outside dirs_read_only))) = false
  /\ is_ok (fst (saveUploadedFile dirs_read_only [] "manual.docx" "doc-7" [])) = false.
Proof.
  assert (H : is_ok (fs_mkdir dirs_read_only (uploadsDir (outside dirs_read_only)))
              && is_ok (fs_mkdir dirs_read_only (pdfsDir (outside dirs_read_only)))
              = false) by (vm_compute; reflexivity).
  split; [exact H|].
  exact (proj1 (upload_needs_both_directories dirs_read_only [] "manual.docx" "doc-7" []
                  H)).
Defined.

(** ** What the fallback renderer draws as it is *)

Lemma replace_printable (s : string) :
  string_forallb is_printable_ascii s = true -> replace_non_printable s = s.
Proof.
  induction s as [|c s IH]; [reflexivity|].
  cbn [string_forallb replace_non_printable]. intros H.
  apply andb_true_iff in H. destruct H as [-> Hs]. now rewrite IH.
Qed.

(** X16.  In a fallback render that succeeds of a text whose non-blank lines
    have at most 95 characters, all of them printable ASCII, the body texts
    of the pages are those lines, unchanged and in order. *)
Theorem short_printable_lines_are_drawn_verbatim env path doc cc s p content :
  fallbackExtraction env path = Ok content ->
  Forall (fun line => (String.length line <= 95)%nat
                      /\ string_forallb is_printable_ascii line = true)
    (contentLines content) ->
  result (convertWordToPDFAlternative env path doc cc) s = Ok p ->
  exists d,
    savedDocument (events (convertWordToPDFAlternative env path doc cc) s) = Some d
    /\ List.concat (map bodyTexts d) = contentLines content.
Proof.
  intros He Hlines H. apply fallback_success in H.
  destruct H as (buf & content' & Hread & Htext & Hsaved & _).
  pose proof (fallbackExtraction_ok env path buf content' Hread Htext) as He'.
  rewrite He in He'. injection He' as <-.
  exists (fallbackDocument env doc content). split; [exact Hsaved|].
  unfold fallbackDocument. rewrite bodyTexts_pages, pagesOf_concat. cbn [List.concat app].
  induction Hlines as [|line rest [Hlen Hprint] _ IH]; [reflexivity|].
  cbn [map]. rewrite IH. f_equal. unfold cleaned.
  rewrite (substring0_short 95 line Hlen). now apply replace_printable.
Qed.

Lemma short_printable_lines_are_drawn_verbatim_witness :
  fallbackExtraction env_no_engine "in.docx" = Ok ("Scope" ++ nl ++ "Purpose")
  /\ contentLines ("Scope" ++ nl ++ "Purpose") = ["Scope"; "Purpose"]
  /\ result (convertWordToPDFAlternative env_no_engine "in.docx" sampleDocument None)
       initial = Ok "/app/pdfs/QC-SOP-001_v2_fallback_1700000000000.pdf"
  /\ exists d,
       savedDocument
         (events (convertWordToPDFAlternative env_no_engine "in.docx" sampleDocument None)
            initial) = Some d
       /\ List.concat (map bodyTexts d) = contentLines ("Scope" ++ nl ++ "Purpose").
Proof.
  assert (H : result (convertWordToPDFAlternative env_no_engine "in.docx" sampleDocument
                        None) initial
              = Ok "/app/pdfs/QC-SOP-001_v2_fallback_1700000000000.pdf")
    by (vm_compute; reflexivity).
  assert (Hc : contentLines ("Scope" ++ nl ++ "Purpose") = ["Scope"; "Purpose"])
    by (vm_compute; reflexivity).
  split; [reflexivity|]. split; [exact Hc|]. split; [exact H|].
  apply (short_printable_lines_are_drawn_verbatim env_no_engine "in.docx" sampleDocument
           None initial "/app/pdfs/QC-SOP-001_v2_fallback_1700000000000.pdf"
           ("Scope" ++ nl ++ "Purpose") eq_refl); [|exact H].
  rewrite Hc. repeat constructor; simpl; lia.
Defined.

Lemma drawHeader_banner_fails env doc ch d p m :
  page_drawText env ("Document Name: " ++ substring0 60 (docName doc)
                     ++ " | Document Number: " ++ substring0 30 (docNumber doc)) = Err m ->
  result (drawHeader env doc ch d p) initial = Err m.
Proof.
  intros H. unfold result, drawHeader, bind. rewrite drawText_run, H. reflexivity.
Qed.

(** X17.  The texts of the header block are drawn as they are, not cleaned
    as the lines of the body are: when pdf-lib cannot encode the name and
    number banner and throws [m], the fallback renderer throws
    ["PDF generation failed completely: " ++ m], although the text of the
    document was extracted, and it saves and writes nothing. *)
Theorem unencodable_banner_fails_fallback env path doc cc content m :
  is_ok (import_pdf_lib env) = true ->
  fallbackExtraction env path = Ok content ->
  is_ok (PDFDocument_create env) = true ->
  (forall f, is_ok (pdfDoc_embedFont env f) = true) ->
  page_drawText env ("Document Name: " ++ substring0 60 (docName doc)
                     ++ " | Document Number: " ++ substring0 30 (docNumber doc)) = Err m ->
  result (convertWordToPDFAlternative env path doc cc) initial
  = Err ("PDF generation failed completely: " ++ m)
  /\ count is_save (events (convertWordToPDFAlternative env path doc cc) initial) = 0%nat
  /\ count is_write (events (convertWordToPDFAlternative env path doc cc) initial) = 0%nat.
Proof.
  unfold fallbackExtraction. intros Hi He Hc Hf Hd.
  unfold_fallback.
  destruct (import_pdf_lib env); [|discriminate Hi]. cbn [fst snd trace browser].
  destruct (fs_readFile env path) as [buf|]; [|discriminate He].
  cbn [fst snd trace browser]. rewrite He. cbn [fst snd trace browser].
  destruct (PDFDocument_create env); [|discriminate Hc]. cbn [fst snd trace browser].
  pose proof (Hf Helvetica) as F1. pose proof (Hf HelveticaBold) as F2.
  destruct (pdfDoc_embedFont env Helvetica); [|discriminate F1].
  cbn [fst snd trace browser].
  destruct (pdfDoc_embedFont env HelveticaBold); [|discriminate F2].
  cbn [fst snd trace browser].
  rewrite drawHeader_run, (drawHeader_banner_fails env doc _ _ _ m Hd).
  cbn [fst snd trace browser]. trace_norm. count_goals.
Qed.

Lemma unencodable_banner_fails_fallback_witness :
  fallbackExtraction env_ascii_font "in.docx" = Ok ("Scope" ++ nl ++ "Purpose")
  /\ page_drawText env_ascii_font
       ("Document Name: " ++ substring0 60 (docName tabbedDocument)
        ++ " | Document Number: " ++ substring0 30 (docNumber tabbedDocument))
     = Err "WinAnsi cannot encode a character of the text"
  /\ result (convertWordToPDFAlternative env_ascii_font "in.docx" tabbedDocument None)
       initial
     = Err ("PDF generation failed completely: "
            ++ "WinAnsi cannot encode a character of the text").
Proof.
  assert (H : page_drawText env_ascii_font
                ("Document Name: " ++ substring0 60 (docName tabbedDocument)
                 ++ " | Document Number: " ++ substring0 30 (docNumber tabbedDocument))
              = Err "WinAnsi cannot encode a character of the text")
    by (vm_compute; reflexivity).
  split; [reflexivity|]. split; [exact H|].
  apply (unencodable_banner_fails_fallback env_ascii_font "in.docx" tabbedDocument None
           ("Scope" ++ nl ++ "Purpose"));
    try reflexivity; try exact H.
Defined.
